(** * Healthcare portal: request validation and role gate

    A shallow embedding of

    - [server/middlewares/validator.js]: the [validate] middleware and the
      four rule sets built with express-validator chains;
    - [server/routes/userRoutes.js]: the user router and its
      [authorizeUsersList] middleware;
    - the client appointment page ([Appointments]): the field validators of
      the booking form and [handleSubmit].

    JavaScript strings are modelled as [string]; a character is one UTF-16
    code unit in the range 0..255, so every string of the model is a
    Latin-1 string.  Numbers, arrays and objects as values of a request
    field are outside the model. *)

From Stdlib Require Import String Ascii List NArith ZArith Bool Lia Floats.
From stdpp Require Import base option list strings gmap.

Local Open Scope string_scope.
Local Open Scope list_scope.

(** ** JavaScript strings *)

Module Js.

Definition code (c : ascii) : N := N_of_ascii c.

Definition in_range (lo hi : N) (c : ascii) : bool :=
  ((lo <=? code c) && (code c <=? hi))%N.

(** [\d] *)
Definition is_digit (c : ascii) : bool := in_range 48 57 c.
(** [[a-z]] and [[A-Z]] *)
Definition is_lower (c : ascii) : bool := in_range 97 122 c.
Definition is_upper (c : ascii) : bool := in_range 65 90 c.
(** [[a-z]] under the [i] flag *)
Definition is_alpha (c : ascii) : bool := is_lower c || is_upper c.
(** [\w] *)
Definition is_word (c : ascii) : bool :=
  is_alpha c || is_digit c || (code c =? 95)%N.
(** [\s], which is also the set that [String.prototype.trim] strips:
    TAB, LF, VT, FF, CR, SP and NBSP are its members below 256. *)
Definition is_space (c : ascii) : bool :=
  in_range 9 13 c || (code c =? 32)%N || (code c =? 160)%N.
(** [.] matches everything but a line terminator. *)
Definition is_dot (c : ascii) : bool :=
  negb ((code c =? 10)%N || (code c =? 13)%N).

Definition is_char (a : ascii) (c : ascii) : bool := Ascii.eqb a c.

Definition one_of (cs : string) (c : ascii) : bool :=
  existsb (Ascii.eqb c) (list_ascii_of_string cs).

(** [str.replace(/^\s+/, '')] *)
Fixpoint trimStart (s : string) : string :=
  match s with
  | EmptyString => EmptyString
  | String c r => if is_space c then trimStart r else s
  end.

(** Dropping the trailing run of white space. *)
Fixpoint trimEnd (s : string) : string :=
  match s with
  | EmptyString => EmptyString
  | String c r =>
      match trimEnd r with
      | EmptyString => if is_space c then EmptyString else String c EmptyString
      | r' => String c r'
      end
  end.

(** [str.trim()] *)
Definition trim (s : string) : string := trimEnd (trimStart s).

(** [str.split(sep)] for a one-character separator: never empty. *)
Fixpoint split (sep : ascii) (s : string) : list string :=
  match s with
  | EmptyString => [EmptyString]
  | String c r =>
      if Ascii.eqb c sep then EmptyString :: split sep r
      else match split sep r with
           | h :: t => String c h :: t
           | [] => [String c EmptyString]
           end
  end.

(** [parts.join(sep)] *)
Fixpoint join (sep : string) (parts : list string) : string :=
  match parts with
  | [] => EmptyString
  | [p] => p
  | p :: rest => p ++ sep ++ join sep rest
  end.

(** [parts.pop()]: the last element and the array that is left. *)
Fixpoint pop (parts : list string) : option (list string * string) :=
  match parts with
  | [] => None
  | [p] => Some ([], p)
  | p :: rest =>
      match pop rest with
      | Some (init, l) => Some (p :: init, l)
      | None => None
      end
  end.

(** [str.slice(1, str.length - 1)] *)
Fixpoint dropLast (s : string) : string :=
  match s with
  | EmptyString => EmptyString
  | String c EmptyString => EmptyString
  | String c r => String c (dropLast r)
  end.

Definition slice_1_m1 (s : string) : string :=
  match s with
  | EmptyString => EmptyString
  | String _ r => dropLast r
  end.

Definition is_empty (s : string) : bool :=
  match s with EmptyString => true | _ => false end.

Definition some_char (p : ascii -> bool) (s : string) : bool :=
  existsb p (list_ascii_of_string s).

Definition all_chars (p : ascii -> bool) (s : string) : bool :=
  forallb p (list_ascii_of_string s).

End Js.

(** ** Regular expressions as backtracking matchers

    A matcher maps the text at the current position to the list of texts
    that can remain after a match there, in the order the engine tries
    them.  [test] is [RegExp.prototype.test] for a pattern that starts with
    [^]. *)

Module Re.

Definition matcher := string -> list string.

Definition eps : matcher := fun s => [s].

Definition chr (p : ascii -> bool) : matcher := fun s =>
  match s with
  | String c r => if p c then [r] else []
  | EmptyString => []
  end.

Definition seq (m1 m2 : matcher) : matcher := fun s =>
  flat_map m2 (m1 s).

Definition alt (m1 m2 : matcher) : matcher := fun s => m1 s ++ m2 s.

(** [m?] *)
Definition opt (m : matcher) : matcher := alt m eps.

(** A literal word. *)
Fixpoint lit (w : string) : matcher :=
  match w with
  | EmptyString => eps
  | String a w' => seq (chr (Js.is_char a)) (lit w')
  end.

(** [[class]*], longest first. *)
Fixpoint many (p : ascii -> bool) (s : string) : list string :=
  match s with
  | EmptyString => [s]
  | String c r => if p c then many p r ++ [s] else [s]
  end.

(** [[class]+] *)
Definition many1 (p : ascii -> bool) : matcher := seq (chr p) (many p).

(** [m{n}] *)
Fixpoint times (n : nat) (m : matcher) : matcher :=
  match n with
  | O => eps
  | S k => seq m (times k m)
  end.

(** [m{0,n}] *)
Fixpoint upto (n : nat) (m : matcher) : matcher :=
  match n with
  | O => eps
  | S k => opt (seq m (upto k m))
  end.

(** [m{lo,hi}] *)
Definition rep (lo hi : nat) (m : matcher) : matcher :=
  seq (times lo m) (upto (hi - lo) m).

(** [(?=m)] and [(?!m)] *)
Definition ahead (m : matcher) : matcher := fun s =>
  match m s with [] => [] | _ => [s] end.
Definition notahead (m : matcher) : matcher := fun s =>
  match m s with [] => [s] | _ => [] end.

(** [$] (no [m] flag) *)
Definition eos : matcher := fun s =>
  match s with EmptyString => [s] | _ => [] end.

(** After a word character, [\b] holds when no word character follows. *)
Definition boundary_after_word : matcher := fun s =>
  match s with
  | EmptyString => [s]
  | String c _ => if Js.is_word c then [] else [s]
  end.

Definition test (m : matcher) (s : string) : bool :=
  match m s with [] => false | _ => true end.

End Re.

(** ** The validators and sanitizers of validator.js

    The string predicates that express-validator's standard validators
    call, with the options the rule sets of this repository pass (the
    defaults where none is passed), on Latin-1 strings. *)

Module ValidatorJs.
Import Js Re.

(** [isEmpty(str)]: [str.length === 0] ([ignore_whitespace] is off). *)
Definition isEmpty (str : string) : bool := is_empty str.

(** [isLength(str, {min, max})]; no surrogate pair or variation selector
    exists below 256, so the length is the number of code units. *)
Definition isLength (min : nat) (max : option nat) (str : string) : bool :=
  let len := String.length str in
  (min <=? len)%nat &&
  match max with
  | None => true
  | Some m => (len <=? m)%nat
  end.

(** [isIn(str, values)] *)
Definition isIn (values : list string) (str : string) : bool :=
  existsb (String.eqb str) values.

(** [matches(str, pattern)]: [pattern.test(str)]. *)
Definition matches (pattern : matcher) (str : string) : bool :=
  test pattern str.

(** [trim(str)] with no character set. *)
Definition trim (str : string) : string := Js.trim str.

(** *** isISO8601 (not strict) *)

Definition digit : matcher := chr is_digit.

(** [(-?)] or [(:?)]: the captured separator is handed to the rest. *)
Definition capture_opt (a : ascii) (k : string -> matcher) : matcher :=
  fun s => seq (chr (is_char a)) (k (String a EmptyString)) s
           ++ k EmptyString s.

(** [[\+-]?\d{4}(?!\d{2}\b)] *)
Definition iso_year : matcher :=
  seq (opt (chr (one_of "+-")))
    (seq (times 4 digit)
       (notahead (seq (times 2 digit) boundary_after_word))).

(** [(0[1-9]|1[0-2])] *)
Definition iso_month : matcher :=
  alt (seq (lit "0") (chr (in_range 49 57)))
      (seq (lit "1") (chr (in_range 48 50))).

(** [([12]\d|0[1-9]|3[01])] *)
Definition iso_day : matcher :=
  alt (seq (chr (one_of "12")) digit)
    (alt (seq (lit "0") (chr (in_range 49 57)))
         (seq (lit "3") (chr (one_of "01")))).

(** [W([0-4]\d|5[0-3])(-?[1-7])?] *)
Definition iso_week : matcher :=
  seq (lit "W")
    (seq (alt (seq (chr (in_range 48 52)) digit)
              (seq (lit "5") (chr (in_range 48 51))))
         (opt (seq (opt (lit "-")) (chr (in_range 49 55))))).

(** [(00[1-9]|0[1-9]\d|[12]\d{2}|3([0-5]\d|6[1-6]))] *)
Definition iso_ordinal : matcher :=
  alt (seq (lit "00") (chr (in_range 49 57)))
    (alt (seq (lit "0") (seq (chr (in_range 49 57)) digit))
       (alt (seq (chr (one_of "12")) (times 2 digit))
            (seq (lit "3")
               (alt (seq (chr (in_range 48 53)) digit)
                    (seq (lit "6") (chr (in_range 49 54))))))).

(** [([01]\d|2[0-3])] *)
Definition iso_hour : matcher :=
  alt (seq (chr (one_of "01")) digit)
      (seq (lit "2") (chr (in_range 48 51))).

(** [[0-5]\d] *)
Definition iso_sixty : matcher := seq (chr (in_range 48 53)) digit.

(** [[\.,]\d+] *)
Definition iso_fraction : matcher :=
  seq (chr (one_of ".,")) (many1 is_digit).

(** [([zZ]|([\+-])([01]\d|2[0-3]):?([0-5]\d)?)?] *)
Definition iso_zone : matcher :=
  opt (alt (chr (one_of "zZ"))
           (seq (chr (one_of "+-"))
              (seq iso_hour (seq (opt (lit ":")) (opt iso_sixty))))).

(** [(\17[0-5]\d([\.,]\d+)?)?] followed by the zone; [sep] is what
    group 17 captured, empty when that group took no part. *)
Definition iso_seconds_zone (sep : string) : matcher :=
  seq (opt (seq (lit sep) (seq iso_sixty (opt iso_fraction)))) iso_zone.

(** [([\.,]\d+(?!:))?] *)
Definition iso_hour_fraction : matcher :=
  opt (seq iso_fraction (notahead (lit ":"))).

(** The time of day after [[T\s]]: group 13 taken or skipped. *)
Definition iso_time : matcher :=
  seq (chr (fun c => is_char "T" c || is_space c))
    (alt
       (alt
          (seq iso_hour
             (alt
                (capture_opt ":" (fun sep =>
                   seq iso_sixty
                     (seq iso_hour_fraction (iso_seconds_zone sep))))
                (seq iso_hour_fraction (iso_seconds_zone EmptyString))))
          (seq (lit "24")
             (seq (opt (lit ":"))
                (seq (lit "00")
                   (seq iso_hour_fraction (iso_seconds_zone EmptyString))))))
       (iso_seconds_zone EmptyString)).

(** The date after the year, [sep] being what group 3 captured. *)
Definition iso_date (sep : string) : matcher :=
  alt (seq iso_month (opt (seq (lit sep) iso_day)))
    (alt iso_week iso_ordinal).

Definition iso8601 : matcher :=
  seq iso_year
    (seq (opt (capture_opt "-" (fun sep =>
                 seq (iso_date sep) (opt iso_time))))
       eos).

Definition isISO8601 (str : string) : bool := test iso8601 str.

(** *** isFQDN, with [require_tld] on and the other options off *)

Definition high (c : ascii) : bool := in_range 161 255 c.

(** [/^([a-z\u00A1-\u00A8\u00AA-\uD7FF...]{2,}|xn[a-z0-9-]{2,})$/i] *)
Definition tld_char (c : ascii) : bool :=
  is_alpha c || in_range 161 168 c || in_range 170 255 c.
Definition xn_char (c : ascii) : bool :=
  is_alpha c || is_digit c || is_char "-" c.
Definition tld_pattern : matcher :=
  seq (alt (seq (times 2 (chr tld_char)) (many tld_char))
           (seq (chr (one_of "xX"))
              (seq (chr (one_of "nN"))
                 (seq (times 2 (chr xn_char)) (many xn_char)))))
      eos.

(** [/^[a-z_\u00a1-\uffff0-9-]+$/i] *)
Definition label_char (c : ascii) : bool :=
  is_alpha c || is_char "_" c || high c || is_digit c || is_char "-" c.

Definition starts_with (a : ascii) (s : string) : bool :=
  match s with String c _ => Ascii.eqb c a | EmptyString => false end.

Fixpoint ends_with (a : ascii) (s : string) : bool :=
  match s with
  | EmptyString => false
  | String c EmptyString => Ascii.eqb c a
  | String _ r => ends_with a r
  end.

Definition fqdn_part (part : string) : bool :=
  if (63 <? String.length part)%nat then false
  else if negb (test (seq (many1 label_char) eos) part) then false
  else if starts_with "-" part || ends_with "-" part then false
  else if some_char (is_char "_") part then false
  else true.

Definition isFQDN (str : string) : bool :=
  let parts := split "." str in
  match pop parts with
  | None => false
  | Some (_, tld) =>
      if (List.length parts <? 2)%nat then false
      else if negb (test tld_pattern tld) then false
      else if some_char is_space tld then false
      else if test (seq (many1 is_digit) eos) tld then false
      else forallb fqdn_part parts
  end.

(** *** isEmail, default options *)

(** The length of the UTF-8 encoding: two bytes from 128 on. *)
Definition byteLength (str : string) : nat :=
  list_sum (map (fun c => if (code c <? 128)%N then 1 else 2)%nat
              (list_ascii_of_string str)).

Definition isByteLength (max : nat) (str : string) : bool :=
  (byteLength str <=? max)%nat.

(** [/^[a-z\d!#\$%&'\*\+\-\/=\?\^_`{\|}~\u00A1-\uD7FF...]+$/i] *)
Definition user_char (c : ascii) : bool :=
  is_alpha c || is_digit c || one_of "!#$%&'*+-/=?^_`{|}~" c || high c.
Definition emailUserUtf8Part : matcher := seq (many1 user_char) eos.

(** [/^([\s\x01-\x08\x0b\x0c\x0e-\x1f\x7f\x21\x23-\x5b\x5d-\x7e\u00A0-...]
      |(\\[\x01-\x09\x0b\x0c\x0d-\x7f\u00A0-...]))*$/i]:
    a backslash is in the first class of neither, so the scan is
    deterministic. *)
Definition quoted_char (c : ascii) : bool :=
  is_space c || in_range 1 8 c || in_range 11 12 c || in_range 14 31 c
  || in_range 127 127 c || in_range 33 33 c || in_range 35 91 c
  || in_range 93 126 c || in_range 160 255 c.
Definition escaped_char (c : ascii) : bool :=
  in_range 1 9 c || in_range 11 12 c || in_range 13 127 c
  || in_range 160 255 c.

Fixpoint quotedEmailUserUtf8 (s : string) : bool :=
  match s with
  | EmptyString => true
  | String c r =>
      if quoted_char c then quotedEmailUserUtf8 r
      else if is_char "\" c then
        match r with
        | String d r' => escaped_char d && quotedEmailUserUtf8 r'
        | EmptyString => false
        end
      else false
  end.

(** The local part is read as a quoted string only when it both starts and
    ends with a double quote; otherwise each of its dot-separated parts
    must match the plain pattern, in which a double quote has no place. *)
Definition isEmail (str : string) : bool :=
  if (254 <? String.length str)%nat then false
  else
    match pop (split "@" str) with
    | None => false
    | Some (parts, domain) =>
        let user := join "@" parts in
        if negb (isByteLength 64 user) || negb (isByteLength 254 domain)
        then false
        else if negb (isFQDN domain) then false
        else if starts_with "034" user && ends_with "034" user
        then quotedEmailUserUtf8 (slice_1_m1 user)
        else forallb (test emailUserUtf8Part) (split "." user)
    end.

End ValidatorJs.


(** ** express-validator: field values, chains and their runner *)

(** The value of a request field: absent, [null], a boolean or a string. *)
Inductive jsvalue :=
| JUndefined
| JNull
| JBool (b : bool)
| JString (s : string).

Module ExpressValidator.

(** [toString(value)] of express-validator's utilities. *)
Definition toString (v : jsvalue) : string :=
  match v with
  | JUndefined | JNull => EmptyString
  | JBool true => "true"
  | JBool false => "false"
  | JString s => s
  end.

(** [a === b] *)
Definition strict_equal (a b : jsvalue) : bool :=
  match a, b with
  | JUndefined, JUndefined => true
  | JNull, JNull => true
  | JBool x, JBool y => Bool.eqb x y
  | JString x, JString y => String.eqb x y
  | _, _ => false
  end.

Definition is_undefined (v : jsvalue) : bool :=
  match v with JUndefined => true | _ => false end.

(** One entry of [errors.array()]; the location is always the body. *)
Record ValidationError := {
  value : jsvalue;
  msg : string;
  path : string
}.

(** The items a chain stacks up: a sanitizer, or a standard validator with
    its negation flag and message. *)
Inductive ContextItem :=
| Sanitization (sanitizer : string -> jsvalue)
| StandardValidation (validator : string -> bool) (negated : bool)
    (message : string).

(** A chain's context: the field, whether [.optional()] was called, and
    the stack of items in the order of the calls. *)
Record ValidationChain := {
  field : string;
  optional : bool;
  stack : list ContextItem
}.

(** [body(field)] *)
Definition body (f : string) : ValidationChain :=
  {| field := f; optional := false; stack := [] |}.

Definition addItem (it : ContextItem) (ch : ValidationChain) : ValidationChain :=
  {| field := field ch; optional := optional ch; stack := stack ch ++ [it] |}.

(** A validator added without [.withMessage] reports ['Invalid value']. *)
Definition useValidator (v : string -> bool) (neg : bool) : ValidationChain -> ValidationChain :=
  addItem (StandardValidation v neg "Invalid value").

Definition useSanitizer (f : string -> string) : ValidationChain -> ValidationChain :=
  addItem (Sanitization (fun s => JString (f s))).

(** [.optional()]: a flag of the context, not an item of the stack. *)
Definition optional_ (ch : ValidationChain) : ValidationChain :=
  {| field := field ch; optional := true; stack := stack ch |}.

(** [.withMessage(m)] sets the message of the validator added last. *)
Fixpoint setFirstMessage (m : string) (r : list ContextItem) : list ContextItem :=
  match r with
  | [] => []
  | StandardValidation v n _ :: t => StandardValidation v n m :: t
  | it :: t => it :: setFirstMessage m t
  end.

Definition withMessage (m : string) (ch : ValidationChain) : ValidationChain :=
  {| field := field ch; optional := optional ch;
     stack := rev (setFirstMessage m (rev (stack ch))) |}.

Definition trim : ValidationChain -> ValidationChain :=
  useSanitizer ValidatorJs.trim.
Definition notEmpty : ValidationChain -> ValidationChain :=
  useValidator ValidatorJs.isEmpty true.
Definition isLength (min : nat) (max : option nat) : ValidationChain -> ValidationChain :=
  useValidator (ValidatorJs.isLength min max) false.
Definition isEmail : ValidationChain -> ValidationChain :=
  useValidator ValidatorJs.isEmail false.
Definition matches (pattern : Re.matcher) : ValidationChain -> ValidationChain :=
  useValidator (ValidatorJs.matches pattern) false.
Definition isIn (values : list string) : ValidationChain -> ValidationChain :=
  useValidator (ValidatorJs.isIn values) false.
Definition isISO8601 : ValidationChain -> ValidationChain :=
  useValidator ValidatorJs.isISO8601 false.

(** [req.body[path]] *)
Definition getField (req : gmap string jsvalue) (p : string) : jsvalue :=
  default JUndefined (req !! p).

(** One item on the current value of the field: a sanitizer replaces the
    value, a validator adds an error when its result equals its negation
    flag. *)
Definition runItem (it : ContextItem) (p : string) (v : jsvalue) : jsvalue * list ValidationError :=
  match it with
  | Sanitization f => (f (toString v), [])
  | StandardValidation val neg m =>
      (v, if Bool.eqb (val (toString v)) neg
          then [{| value := v; msg := m; path := p |}]
          else [])
  end.

(** The runner's loop over the stack.  Before each item the field is
    dropped when the chain is optional and the value is [undefined]; after
    each item a changed value is written back to the request. *)
Fixpoint runStack (opt : bool) (p : string) (items : list ContextItem)
    (req : gmap string jsvalue) (v : jsvalue) : gmap string jsvalue * list ValidationError :=
  match items with
  | [] => (req, [])
  | it :: rest =>
      if opt && is_undefined v then runStack opt p rest req v
      else
        let '(v1, e1) := runItem it p v in
        let req1 := if strict_equal (getField req p) v1 then req
                    else <[p := v1]> req in
        let '(req2, e2) := runStack opt p rest req1 v1 in
        (req2, e1 ++ e2)
  end.

(** [chain.run(req)] *)
Definition run (ch : ValidationChain) (req : gmap string jsvalue) : gmap string jsvalue * list ValidationError :=
  runStack (optional ch) (field ch) (stack ch) req (getField req (field ch)).

End ExpressValidator.

(** ** server/middlewares/validator.js *)

Module Validator.
Import ExpressValidator.

(** Method chaining: [ch |> f |> g] reads [ch.f().g()]. *)
Notation "ch |> f" := (f ch) (at level 45, left associativity, only parsing).

(** What [res.status(code).json({ success, errors })] sends. *)
Record Response := {
  status : nat;
  success : bool;
  errors : list ValidationError
}.

(** The middleware either calls [next()] on the (sanitized) request or
    sends a response; in the second case no later handler runs. *)
Inductive Outcome :=
| Next (req : gmap string jsvalue)
| Send (res : Response).

(** [Promise.all(validations.map(validation => validation.run(req)))] and
    [validationResult(req)]: every chain runs on the shared request and the
    errors of all contexts are gathered.  The chains of a rule set name
    distinct fields, so the interleaving of their steps does not change
    what a chain reads or writes, and the model runs them one after the
    other.  The library appends a chain's context when the chain finishes;
    the model lists the contexts in the order of the rule set. *)
Fixpoint runAll (validations : list ValidationChain)
    (req : gmap string jsvalue) : gmap string jsvalue * list ValidationError :=
  match validations with
  | [] => (req, [])
  | ch :: rest =>
      let '(req1, e1) := run ch req in
      let '(req2, e2) := runAll rest req1 in
      (req2, e1 ++ e2)
  end.

Definition validate (validations : list ValidationChain)
    (req : gmap string jsvalue) : Outcome :=
  let '(req', errs) := runAll validations req in
  match errs with
  | [] => Next req'
  | _ => Send {| status := 400; success := false; errors := errs |}
  end.

(** [/^(?=.*[a-z])(?=.*[A-Z])(?=.*\d)/] *)
Definition passwordPattern : Re.matcher :=
  Re.seq (Re.ahead (Re.seq (Re.many Js.is_dot) (Re.chr Js.is_lower)))
    (Re.seq (Re.ahead (Re.seq (Re.many Js.is_dot) (Re.chr Js.is_upper)))
       (Re.ahead (Re.seq (Re.many Js.is_dot) (Re.chr Js.is_digit)))).

(** [/^[+]?[(]?[0-9]{1,4}[)]?[-\s.]?[(]?[0-9]{1,4}[)]?[-\s.]?[0-9]{1,9}$/] *)
Definition phoneSeparator (c : ascii) : bool :=
  Js.is_char "-" c || Js.is_space c || Js.is_char "." c.

Definition phonePattern : Re.matcher :=
  Re.seq (Re.opt (Re.lit "+"))
    (Re.seq (Re.opt (Re.lit "("))
       (Re.seq (Re.rep 1 4 (Re.chr Js.is_digit))
          (Re.seq (Re.opt (Re.lit ")"))
             (Re.seq (Re.opt (Re.chr phoneSeparator))
                (Re.seq (Re.opt (Re.lit "("))
                   (Re.seq (Re.rep 1 4 (Re.chr Js.is_digit))
                      (Re.seq (Re.opt (Re.lit ")"))
                         (Re.seq (Re.opt (Re.chr phoneSeparator))
                            (Re.seq (Re.rep 1 9 (Re.chr Js.is_digit))
                               Re.eos))))))))).

Section RuleSets.

(** validator.js's [normalizeEmail], which yields a string or [false]; its
    provider tables are not part of this development. *)
Variable normalizeEmail_js : string -> jsvalue.

Definition normalizeEmail : ValidationChain -> ValidationChain :=
  addItem (Sanitization normalizeEmail_js).

Definition registerValidation : list ValidationChain := [
  body "name"
    |> trim
    |> notEmpty |> withMessage "Name is required"
    |> isLength 0 (Some 100) |> withMessage "Name cannot exceed 100 characters";
  body "email"
    |> trim
    |> isEmail |> withMessage "Please provide a valid email"
    |> normalizeEmail;
  body "password"
    |> isLength 8 None |> withMessage "Password must be at least 8 characters"
    |> matches passwordPattern |> withMessage "Password must contain at least one uppercase letter, one lowercase letter, and one number";
  body "role"
    |> optional_
    |> isIn ["patient"; "doctor"; "admin"] |> withMessage "Invalid role";
  body "phone"
    |> optional_
    |> trim
    |> matches phonePattern |> withMessage "Invalid phone number"
].

Definition loginValidation : list ValidationChain := [
  body "email"
    |> trim
    |> isEmail |> withMessage "Please provide a valid email"
    |> normalizeEmail;
  body "password"
    |> notEmpty |> withMessage "Password is required"
].

Definition appointmentValidation : list ValidationChain := [
  body "doctor"
    |> notEmpty |> withMessage "Doctor is required";
  body "appointmentDate"
    |> notEmpty |> withMessage "Appointment date is required"
    |> isISO8601 |> withMessage "Invalid date format";
  body "appointmentTime"
    |> notEmpty |> withMessage "Appointment time is required"
    |> trim;
  body "reason"
    |> optional_
    |> trim
    |> isLength 0 (Some 500) |> withMessage "Reason cannot exceed 500 characters"
].

Definition symptomValidation : list ValidationChain := [
  body "symptoms"
    |> notEmpty |> withMessage "Symptoms are required"
    |> trim
    |> isLength 10 None |> withMessage "Please provide at least 10 characters describing your symptoms"
    |> isLength 0 (Some 2000) |> withMessage "Symptoms description cannot exceed 2000 characters"
].

End RuleSets.

End Validator.

(** ** server/middlewares/auth.js

    The file is not part of the sources at hand; its two middlewares are
    taken from the specification of the access-control gate. *)

Module Auth.

(** The authenticated actor that the authentication step attaches to the
    request as [req.user]. *)
Record Principal := {
  id : string;
  role : string
}.

(** A value of the parsed query string: a string, or an array when the key
    is repeated. *)
Inductive QueryValue :=
| QString (s : string)
| QArray (l : list string).

Inductive Method := GET | HEAD | POST | PUT | PATCH | DELETE.

(** The request as the router sees it; [path] holds the segments of the
    URL below the router's mount point, as they were sent (a route
    parameter is percent-decoded only after the route has matched). *)
Record Request := {
  user : option Principal;
  method : Method;
  path : list string;
  query : gmap string QueryValue;
  body : gmap string jsvalue
}.

Inductive HttpError := Unauthenticated | Forbidden.

Definition statusCode (e : HttpError) : nat :=
  match e with
  | Unauthenticated => 401
  | Forbidden => 403
  end.

(** What a middleware does with a request: call [next()], fail with an
    error that ends the request, or throw. *)
Inductive Step :=
| Continue
| Halt (e : HttpError)
| Throw.

(** Modelled from the spec: [protect] of middlewares/auth.js.  "If no
    principal is present: fail with an Unauthenticated error (HTTP
    401-equivalent), halting the pipeline." *)
Definition protect (req : Request) : Step :=
  match user req with
  | None => Halt Unauthenticated
  | Some _ => Continue
  end.

(** Modelled from the spec: [authorize(...roles)] of middlewares/auth.js.
    "The principal's role must be a member of the route's permitted-role
    set"; "on failure of the allow-list check: fail with a Forbidden error
    (HTTP 403-equivalent)"; without a principal the gate fails with
    Unauthenticated. *)
Definition authorize (roles : list string) (req : Request) : Step :=
  match user req with
  | None => Halt Unauthenticated
  | Some u =>
      if existsb (String.eqb (role u)) roles then Continue
      else Halt Forbidden
  end.

End Auth.

(** ** server/routes/userRoutes.js *)

Module UserRoutes.
Import Auth.

(** The handlers of controllers/userController.js, by name. *)
Inductive Handler :=
| getUsers
| getUserById
| updateUser
| deleteUser
| getDashboardStats
| getHealthTrends.

(** [req.query[key] === want] *)
Definition queryIs (req : Request) (key want : string) : bool :=
  match query req !! key with
  | Some (QString s) => String.eqb s want
  | _ => false
  end.

(** Custom middleware to allow patients to fetch doctors only.  Reading
    [req.user.role] throws when no principal is attached. *)
Definition authorizeUsersList (req : Request) : Step :=
  match user req with
  | None => Throw
  | Some u =>
      if String.eqb (role u) "patient" && queryIs req "role" "doctor"
      then Continue
      else authorize ["admin"; "doctor"] req
  end.

(** Route paths: ['/'], a literal segment, or ['/:id']. *)
Inductive Pattern :=
| PRoot
| PLit (s : string)
| PParam.

Record Route := {
  verb : Method;
  pattern : Pattern;
  middlewares : list (Request -> Step);
  handler : Handler
}.

Definition routes : list Route := [
  {| verb := GET; pattern := PLit "stats"; middlewares := [];
     handler := getDashboardStats |};
  {| verb := GET; pattern := PLit "trends"; middlewares := [];
     handler := getHealthTrends |};
  {| verb := GET; pattern := PRoot; middlewares := [authorizeUsersList];
     handler := getUsers |};
  {| verb := GET; pattern := PParam;
     middlewares := [authorize ["admin"; "doctor"]];
     handler := getUserById |};
  {| verb := PUT; pattern := PParam; middlewares := [authorize ["admin"]];
     handler := updateUser |};
  {| verb := DELETE; pattern := PParam; middlewares := [authorize ["admin"]];
     handler := deleteUser |}
].

(** Express matches paths without regard to the case of ASCII letters. *)
Definition lowerAscii (c : ascii) : ascii :=
  if Js.is_upper c then ascii_of_N (Js.code c + 32) else c.

Fixpoint toLowerCase (s : string) : string :=
  match s with
  | EmptyString => EmptyString
  | String c r => String (lowerAscii c) (toLowerCase r)
  end.

Definition matchPath (p : Pattern) (segments : list string) : bool :=
  match p, segments with
  | PRoot, [] => true
  | PLit s, [seg] => String.eqb (toLowerCase seg) s
  | PParam, [seg] => negb (Js.is_empty seg)
  | _, _ => false
  end.

(** A [get] route also answers HEAD. *)
Definition matchMethod (v m : Method) : bool :=
  match v, m with
  | GET, GET | GET, HEAD | POST, POST | PUT, PUT | PATCH, PATCH
  | DELETE, DELETE | HEAD, HEAD => true
  | _, _ => false
  end.

(** How a request ends in the router: a handler is invoked, the request is
    rejected, a middleware threw, or no route matched. *)
Inductive Outcome :=
| Invoke (h : Handler)
| Fail (e : HttpError)
| Crash
| NotFound.

Fixpoint runMiddlewares (ms : list (Request -> Step)) (h : Handler)
    (req : Request) : Outcome :=
  match ms with
  | [] => Invoke h
  | m :: rest =>
      match m req with
      | Continue => runMiddlewares rest h req
      | Halt e => Fail e
      | Throw => Crash
      end
  end.

Fixpoint dispatch (rs : list Route) (req : Request) : Outcome :=
  match rs with
  | [] => NotFound
  | r :: rest =>
      if matchMethod (verb r) (method req) && matchPath (pattern r) (path req)
      then runMiddlewares (middlewares r) (handler r) req
      else dispatch rest req
  end.

(** [router.use(protect)] comes before every route. *)
Definition router (req : Request) : Outcome :=
  match protect req with
  | Continue => dispatch routes req
  | Halt e => Fail e
  | Throw => Crash
  end.

End UserRoutes.

(** ** client: the appointment booking form (pages/patient/Appointments) *)

Module Appointments.

Record FormData := {
  doctor : string;
  appointmentDate : string;
  appointmentTime : string;
  reason : string;
  symptoms : string
}.

Definition emptyForm : FormData :=
  {| doctor := ""; appointmentDate := ""; appointmentTime := "";
     reason := ""; symptoms := "" |}.

(** The component state that the form handlers read and set. *)
Record State := {
  formData : FormData;
  errors : gmap string string;
  showForm : bool;
  showSuccess : bool
}.

(** How [appointmentService.create] ends: resolved, or rejected with the
    message of the response when it has one. *)
Inductive CreateReply :=
| Created
| Rejected (message : option string).

(** What a handler does besides setting state. *)
Inductive Effect :=
| CreateAppointment (data : FormData)
| FetchAppointments
| Alert (message : string).

Section Client.

(** The host's [Number(str)], a double. *)
Variable Number : string -> float.
(** The time value of [new Date(str)], [None] for an invalid date; the
    time value of [new Date()]; and [setHours(0, 0, 0, 0)] on a time value
    in the local zone. *)
Variable parseDate : string -> option Z.
Variable now : Z.
Variable startOfDay : Z -> Z.

Definition validateDoctor (doctor : string) : string :=
  if Js.is_empty doctor then "Doctor selection is required" else "".

(** An invalid date compares false with everything. *)
Definition validateDate (date : string) : string :=
  if Js.is_empty date then ""
  else
    match parseDate date with
    | Some selectedDate =>
        if (startOfDay selectedDate <=? startOfDay now)%Z
        then "Date must be in the future"
        else ""
    | None => ""
    end.

(** [minutes] is [undefined] when the text has no colon, and
    [undefined / 60] is NaN. *)
Definition validateTime (time : string) : string :=
  if Js.is_empty time then ""
  else
    let parts := map Number (Js.split ":" time) in
    let hours := nth 0 parts nan in
    let minutes := nth 1 parts nan in
    let hour := (hours + minutes / 60)%float in
    if (hour <? 9)%float || (17 <? hour)%float
    then "Time must be during business hours (9 AM - 5 PM)"
    else "".

Definition validateReason (reason : string) : string :=
  if Js.is_empty reason || Js.is_empty (Js.trim reason)
  then "Reason field must be at least 10 characters"
  else if (String.length (Js.trim reason) <? 10)%nat
  then "Reason field must be at least 10 characters"
  else "".

(** [setErrors((prev) => ({ ...prev, [name]: error }))] and the verdict. *)
Definition validateField (name value : string)
    (errs : gmap string string) : gmap string string * bool :=
  let error :=
    if String.eqb name "doctor" then validateDoctor value
    else if String.eqb name "appointmentDate" then validateDate value
    else if String.eqb name "appointmentTime" then validateTime value
    else if String.eqb name "reason" then validateReason value
    else "" in
  (<[name := error]> errs, Js.is_empty error).

Definition validateForm (fd : FormData)
    (errs : gmap string string) : gmap string string * bool :=
  let '(e1, doctorValid) := validateField "doctor" (doctor fd) errs in
  let '(e2, dateValid) := validateField "appointmentDate" (appointmentDate fd) e1 in
  let '(e3, timeValid) := validateField "appointmentTime" (appointmentTime fd) e2 in
  let '(e4, reasonValid) := validateField "reason" (reason fd) e3 in
  (e4, doctorValid && dateValid && timeValid && reasonValid).

(** [handleSubmit]: the new state and the effects in the order they
    happen.  The timer that hides the success banner is left out. *)
Definition handleSubmit (reply : CreateReply) (st : State) : State * list Effect :=
  let '(errs, valid) := validateForm (formData st) (errors st) in
  if negb valid then
    ({| formData := formData st; errors := errs;
        showForm := showForm st; showSuccess := showSuccess st |}, [])
  else
    match reply with
    | Created =>
        ({| formData := emptyForm; errors := ∅;
            showForm := false; showSuccess := true |},
         [CreateAppointment (formData st); FetchAppointments])
    | Rejected message =>
        ({| formData := formData st; errors := errs;
            showForm := showForm st; showSuccess := showSuccess st |},
         [CreateAppointment (formData st);
          Alert (match message with
                 | Some m => if Js.is_empty m then "Failed to create appointment" else m
                 | None => "Failed to create appointment"
                 end)])
    end.

End Client.

(** [!errors[name]]: no entry, or the empty string. *)
Definition noError (errs : gmap string string) (name : string) : bool :=
  match errs !! name with
  | Some e => Js.is_empty e
  | None => true
  end.

(** [isFormValid], which enables the submit button: the four fields are
    non-empty and none of them has an error. *)
Definition isFormValid (st : State) : bool :=
  negb (Js.is_empty (doctor (formData st)))
  && negb (Js.is_empty (appointmentDate (formData st)))
  && negb (Js.is_empty (appointmentTime (formData st)))
  && negb (Js.is_empty (reason (formData st)))
  && noError (errors st) "doctor"
  && noError (errors st) "appointmentDate"
  && noError (errors st) "appointmentTime"
  && noError (errors st) "reason".

End Appointments.

(** ** client: the patient dashboard (pages/patient/PatientDashboard) *)

Module PatientDashboard.

(** [appointment.patient]: missing ([undefined] or [null]), the id of the
    patient, or the populated patient document with its [_id]. *)
Inductive PatientRef :=
| NoPatient
| PatientId (id : string)
| PatientDoc (_id : option string).

Record Appointment := {
  appointmentId : string;
  patient : PatientRef;
  status : string
}.

(** The [user] of the authentication context. *)
Record User := {
  user_id : option string;
  id : option string
}.

(** [(appointment.patient?._id || appointment.patient)?.toString()]; a
    document without a usable [_id] prints as an object. *)
Definition patientId (appointment : Appointment) : option string :=
  match patient appointment with
  | NoPatient => None
  | PatientId s => Some s
  | PatientDoc (Some i) =>
      if Js.is_empty i then Some "[object Object]" else Some i
  | PatientDoc None => Some "[object Object]"
  end.

(** [(user?._id || user?.id)?.toString()] *)
Definition currentUserId (user : option User) : option string :=
  match user with
  | None => None
  | Some u =>
      match user_id u with
      | Some i => if Js.is_empty i then id u else Some i
      | None => id u
      end
  end.

(** [a === b] on a string or [undefined]. *)
Definition sameId (a b : option string) : bool :=
  match a, b with
  | None, None => true
  | Some x, Some y => String.eqb x y
  | _, _ => false
  end.

(** Filter appointments by current patient. *)
Definition patientAppointments (user : option User)
    (appointments : list Appointment) : list Appointment :=
  List.filter (fun appointment =>
                 sameId (patientId appointment) (currentUserId user))
    appointments.

Section Dashboard.

(** The payloads that the dashboard only stores. *)
Variables Stats Analysis Trend : Type.

Record State := {
  stats : option Stats;
  recentAppointments : list Appointment;
  recentAnalyses : list Analysis;
  trends : list Trend;
  loading : bool
}.

(** [fetchData] on the outcome of the four requests.  [None] for the
    statistics is a rejected request, which leaves the [try] block; for
    the other three [None] is a rejected request or a response without
    the list, both of which give the empty list. *)
Definition fetchData (user : option User) (statsResponse : option Stats)
    (appointmentsResponse : option (list Appointment))
    (analysesResponse : option (list Analysis))
    (trendsResponse : option (list Trend)) (st : State) : State :=
  match statsResponse with
  | None =>
      {| stats := stats st; recentAppointments := recentAppointments st;
         recentAnalyses := recentAnalyses st; trends := trends st;
         loading := false |}
  | Some s =>
      let appointments := default [] appointmentsResponse in
      let analyses := default [] analysesResponse in
      {| stats := Some s;
         recentAppointments := take 3 (patientAppointments user appointments);
         recentAnalyses := take 3 analyses;
         trends := default [] trendsResponse;
         loading := false |}
  end.

End Dashboard.

End PatientDashboard.

(** * Properties *)

(** ** Which rule fails on which value

    [reaches] is the value of the field when the runner arrives at item [i]
    of a stack, and [failure] the message of item [i] when that item is a
    validator that is applied to this value and rejects it. *)

Module Rules.
Import ExpressValidator Validator.

Definition sanitized (it : ContextItem) (v : jsvalue) : jsvalue :=
  match it with
  | Sanitization f => f (toString v)
  | StandardValidation _ _ _ => v
  end.

Fixpoint reaches (opt : bool) (items : list ContextItem) (v : jsvalue)
    (i : nat) : jsvalue :=
  match i, items with
  | S k, it :: rest =>
      reaches opt rest (if opt && is_undefined v then v else sanitized it v) k
  | _, _ => v
  end.

Definition failure (opt : bool) (items : list ContextItem) (v : jsvalue)
    (i : nat) : option string :=
  match items !! i with
  | Some (StandardValidation val neg m) =>
      let w := reaches opt items v i in
      if opt && is_undefined w then None
      else if Bool.eqb (val (toString w)) neg then Some m else None
  | _ => None
  end.

(** Rule [i] of chain [ch] fails on request [req] with message [m]. *)
Definition ruleFails (ch : ValidationChain) (req : gmap string jsvalue)
    (i : nat) (m : string) : Prop :=
  failure (optional ch) (stack ch) (getField req (field ch)) i = Some m.

(** The errors of an outcome, and an outcome that cites a field. *)
Definition errorsOf (o : Outcome) : list ValidationError :=
  match o with
  | Next _ => []
  | Send res => errors res
  end.

Definition cites (o : Outcome) (f : string) : Prop :=
  exists e, e ∈ errorsOf o /\ path e = f.

(** The request is answered with status 400 and [success: false]. *)
Definition rejected (o : Outcome) : Prop :=
  exists res, o = Send res /\ status res = 400 /\ success res = false.

Definition continues (o : Outcome) : Prop :=
  exists req', o = Next req'.

(** The password rule in the words of the specification: at least 8
    characters, with a lowercase letter, an uppercase letter and a digit
    among them. *)
Definition passwordRule (pw : string) : bool :=
  (8 <=? String.length pw)%nat
  && Js.some_char Js.is_lower pw
  && Js.some_char Js.is_upper pw
  && Js.some_char Js.is_digit pw.

(** No white space at the front. *)
Definition no_lead (s : string) : bool :=
  match s with
  | EmptyString => true
  | String c _ => negb (Js.is_space c)
  end.

(** The text before the first line terminator. *)
Fixpoint firstLine (s : string) : string :=
  match s with
  | EmptyString => EmptyString
  | String c r => if Js.is_dot c then String c (firstLine r) else EmptyString
  end.

(** What the two password rules of the registration accept together: at
    least 8 characters, and a lowercase letter, an uppercase letter and a
    digit on the first line. *)
Definition passwordAccepted (pw : string) : bool :=
  (8 <=? String.length pw)%nat
  && Js.some_char Js.is_lower (firstLine pw)
  && Js.some_char Js.is_upper (firstLine pw)
  && Js.some_char Js.is_digit (firstLine pw).

(** The characters of a telephone number: digits, [+ ( ) - .] and white
    space. *)
Definition phoneChar (c : ascii) : bool :=
  Js.is_digit c || Js.one_of "+()-." c || Js.is_space c.

(** Every match of [m] consumes between [lo] and [hi] characters, all of
    class [Q]. *)
Definition consumes (Q : ascii -> bool) (lo hi : nat) (m : Re.matcher) : Prop :=
  forall s r, In r (m s) ->
    exists pre, s = (pre ++ r)%string /\ Js.all_chars Q pre = true
                /\ lo <= String.length pre <= hi.

(** A pattern closed by [$] leaves nothing over. *)
Definition finishes (m : Re.matcher) : Prop :=
  forall s r, In r (m s) -> r = "".

(** The characters of an ISO 8601 date and time. *)
Definition isoChar (c : ascii) : bool :=
  Js.is_digit c || Js.one_of "+-:.,TWzZ" c || Js.is_space c.

Definition eats (Q : ascii -> bool) (m : Re.matcher) : Prop :=
  forall s r, In r (m s) ->
    exists pre, s = (pre ++ r)%string /\ Js.all_chars Q pre = true.

Definition isLeapYear (y : nat) : bool :=
  ((y mod 4 =? 0)%nat && negb (y mod 100 =? 0)%nat) || (y mod 400 =? 0)%nat.

Definition daysInMonth (y m : nat) : nat :=
  match m with
  | 2 => if isLeapYear y then 29 else 28
  | 4 | 6 | 9 | 11 => 30
  | _ => 31
  end.

(** Day [d] of month [m] of year [y] exists in the calendar. *)
Definition calendarDay (y m d : nat) : bool :=
  (1 <=? m)%nat && (m <=? 12)%nat && (1 <=? d)%nat && (d <=? daysInMonth y m)%nat.

Definition digitChar (k : nat) : ascii := ascii_of_nat (48 + k).

Definition pad2 (n : nat) : string :=
  String (digitChar (n / 10)) (String (digitChar (n mod 10)) EmptyString).

(** The text YYYY-MM-DD of a year below 10000, a month and a day. *)
Definition dateText (y m d : nat) : string :=
  String (digitChar (y / 1000)) (String (digitChar (y / 100 mod 10))
    (String (digitChar (y / 10 mod 10)) (String (digitChar (y mod 10))
       (String "-" (pad2 m ++ String "-" (pad2 d))%string)))).
(** What [iso8601] matches after the year. *)
Definition afterYear : Re.matcher :=
  Re.seq (Re.opt (ValidatorJs.capture_opt "-" (fun sep =>
            Re.seq (ValidatorJs.iso_date sep) (Re.opt ValidatorJs.iso_time))))
    Re.eos.

(** The text before the last [@] of an address. *)
Definition localPart (s : string) : string :=
  match Js.pop (Js.split "@" s) with
  | Some (parts, _) => Js.join "@" parts
  | None => EmptyString
  end.

End Rules.

Section RunnerFacts.
Import ExpressValidator Validator Rules.

Lemma runStack_skip opt p it rest (req : gmap string jsvalue) v :
  opt && is_undefined v = true ->
  runStack opt p (it :: rest) req v = runStack opt p rest req v.
Proof. intros H. simpl. now rewrite H. Qed.

Lemma runStack_step opt p it rest (req : gmap string jsvalue) v :
  opt && is_undefined v = false ->
  runStack opt p (it :: rest) req v =
  let req1 := if strict_equal (getField req p) (sanitized it v) then req
              else <[p := sanitized it v]> req in
  (fst (runStack opt p rest req1 (sanitized it v)),
   snd (runItem it p v) ++ snd (runStack opt p rest req1 (sanitized it v))).
Proof.
  intros H. simpl. rewrite H.
  destruct it as [f | val neg m]; simpl;
    match goal with |- context [runStack ?a ?b ?c ?d ?e] =>
      destruct (runStack a b c d e) end; reflexivity.
Qed.

(** The errors of a chain depend on the value of its field only. *)
Lemma runStack_errors_request opt p items (req req' : gmap string jsvalue) v :
  snd (runStack opt p items req v) = snd (runStack opt p items req' v).
Proof.
  revert req req' v. induction items as [| it rest IH]; intros req req' v.
  - reflexivity.
  - destruct (opt && is_undefined v) eqn:E.
    + rewrite !runStack_skip by assumption. apply IH.
    + rewrite !runStack_step by assumption. simpl. f_equal. apply IH.
Qed.

(** A chain writes to its own field only. *)
Lemma runStack_other_field opt p items (req : gmap string jsvalue) v q :
  p <> q ->
  getField (fst (runStack opt p items req v)) q = getField req q.
Proof.
  intros Hpq. revert req v. induction items as [| it rest IH]; intros req v.
  - reflexivity.
  - destruct (opt && is_undefined v) eqn:E.
    + rewrite runStack_skip by assumption. apply IH.
    + rewrite runStack_step by assumption. simpl. rewrite IH.
      destruct (strict_equal _ _); [reflexivity |].
      unfold getField. now rewrite lookup_insert_ne.
Qed.

(** The errors of a stack are exactly its failing rules, each reported
    with the value it was applied to. *)
Lemma runStack_errors opt p items (req : gmap string jsvalue) v e :
  e ∈ snd (runStack opt p items req v) <->
  exists i m, failure opt items v i = Some m /\
              e = {| value := reaches opt items v i; msg := m; path := p |}.
Proof.
  revert req v. induction items as [| it rest IH]; intros req v.
  - simpl. split.
    + intros H. inversion H.
    + intros (i & m & H & _). unfold failure in H.
      rewrite lookup_nil in H. discriminate.
  - destruct (opt && is_undefined v) eqn:E.
    + rewrite runStack_skip by assumption. rewrite IH. split.
      * intros (i & m & H & ->). exists (S i), m. unfold failure in *.
        simpl. rewrite E. split; [exact H | reflexivity].
      * intros (i & m & H & ->). destruct i as [| i].
        -- unfold failure in H. simpl in H.
           destruct it; [discriminate |]. rewrite E in H. discriminate.
        -- exists i, m. unfold failure in *. simpl in *. rewrite E in *.
           split; [exact H | reflexivity].
    + rewrite runStack_step by assumption. simpl.
      rewrite elem_of_app, IH. split.
      * intros [H | (i & m & H & ->)].
        -- destruct it as [f | val neg m]; simpl in H.
           ++ inversion H.
           ++ destruct (Bool.eqb (val (toString v)) neg) eqn:Hv.
              ** apply list_elem_of_singleton in H. subst e.
                 exists 0, m. unfold failure. simpl. rewrite E, Hv.
                 split; reflexivity.
              ** inversion H.
        -- exists (S i), m. unfold failure in *. simpl. rewrite E.
           split; [exact H | reflexivity].
      * intros (i & m & H & ->). destruct i as [| i].
        -- left. unfold failure in H. simpl in H.
           destruct it as [f | val neg m']; [discriminate |].
           rewrite E in H. simpl.
           destruct (Bool.eqb (val (toString v)) neg); [| discriminate].
           injection H as ->. apply list_elem_of_singleton. reflexivity.
        -- right. exists i, m. unfold failure in *. simpl in H.
           rewrite E in H. simpl. rewrite E.
           split; [exact H | reflexivity].
Qed.

Lemma strict_equal_eq a b : strict_equal a b = true -> a = b.
Proof.
  destruct a as [| | x | x], b as [| | y | y]; simpl; try discriminate;
    try reflexivity.
  - intros H. apply Bool.eqb_prop in H. now subst.
  - intros H. apply String.eqb_eq in H. now subst.
Qed.

(** After a chain, its field holds the value that left the last item. *)
Lemma runStack_own_field opt p items (req : gmap string jsvalue) v :
  getField req p = v ->
  getField (fst (runStack opt p items req v)) p =
  reaches opt items v (length items).
Proof.
  revert req v. induction items as [| it rest IH]; intros req v Hv.
  - exact Hv.
  - destruct (opt && is_undefined v) eqn:E.
    + rewrite runStack_skip by assumption. simpl. rewrite E. now apply IH.
    + rewrite runStack_step by assumption. simpl. rewrite E. apply IH.
      destruct (strict_equal (getField req p) (sanitized it v)) eqn:S.
      * now apply strict_equal_eq.
      * unfold getField. now rewrite lookup_insert_eq.
Qed.

Lemma run_errors_field ch (req req' : gmap string jsvalue) :
  getField req' (field ch) = getField req (field ch) ->
  snd (run ch req') = snd (run ch req).
Proof.
  intros H. unfold run. rewrite H. apply runStack_errors_request.
Qed.

Lemma run_other_field ch (req : gmap string jsvalue) q :
  field ch <> q -> getField (fst (run ch req)) q = getField req q.
Proof. intros H. unfold run. now apply runStack_other_field. Qed.

Lemma runAll_cons ch rest (req : gmap string jsvalue) :
  runAll (ch :: rest) req =
  (fst (runAll rest (fst (run ch req))),
   snd (run ch req) ++ snd (runAll rest (fst (run ch req)))).
Proof.
  simpl. destruct (run ch req) as [req1 e1]. simpl.
  destruct (runAll rest req1) as [req2 e2]. reflexivity.
Qed.

(** With one chain per field, every chain of a rule set sees the value
    that the request arrived with. *)
Lemma runAll_errors vs (req : gmap string jsvalue) e :
  NoDup (map field vs) ->
  e ∈ snd (runAll vs req) <-> exists ch, ch ∈ vs /\ e ∈ snd (run ch req).
Proof.
  intros Hnd.
  enough (G : forall req' : gmap string jsvalue,
             (forall ch, ch ∈ vs -> getField req' (field ch) = getField req (field ch)) ->
             e ∈ snd (runAll vs req') <-> exists ch, ch ∈ vs /\ e ∈ snd (run ch req)).
  { apply G. reflexivity. }
  induction vs as [| ch rest IH]; intros req' Hsame.
  - simpl. split.
    + intros H. inversion H.
    + intros (ch & H & _). inversion H.
  - apply NoDup_cons in Hnd as [Hfresh Hnd].
    rewrite runAll_cons. simpl. rewrite elem_of_app.
    rewrite (run_errors_field ch req req') by (apply Hsame; left).
    rewrite (IH Hnd).
    + split.
      * intros [H | (ch' & Hin & H)].
        -- exists ch. split; [left | exact H].
        -- exists ch'. split; [now right | exact H].
      * intros (ch' & Hin & H). apply elem_of_cons in Hin as [-> | Hin].
        -- now left.
        -- right. now exists ch'.
    + intros ch' Hin. rewrite run_other_field.
      * apply Hsame. now right.
      * intros Heq. apply Hfresh. rewrite Heq.
        apply list_elem_of_fmap. now exists ch'.
Qed.

(** What the handler reads in the field of a chain is what the chain's
    sanitizers made of the value that arrived. *)
Lemma runAll_field vs (req : gmap string jsvalue) ch :
  NoDup (map field vs) -> ch ∈ vs ->
  getField (fst (runAll vs req)) (field ch) =
  reaches (optional ch) (stack ch) (getField req (field ch))
    (length (stack ch)).
Proof.
  intros Hnd Hin. revert req.
  induction vs as [| ch0 rest IH]; intros req; [inversion Hin |].
  apply NoDup_cons in Hnd as [Hfresh Hnd].
  rewrite runAll_cons. simpl.
  apply elem_of_cons in Hin as [-> | Hin].
  - assert (G : forall (r : gmap string jsvalue) l,
               field ch0 ∉ map field l ->
               getField (fst (runAll l r)) (field ch0) = getField r (field ch0)).
    { intros r l. revert r. induction l as [| c l IHl]; intros r Hn.
      - reflexivity.
      - rewrite runAll_cons. simpl. simpl in Hn.
        apply not_elem_of_cons in Hn as [Hne Hn].
        rewrite (IHl _ Hn). apply run_other_field. congruence. }
    rewrite (G _ _ Hfresh). unfold run. now apply runStack_own_field.
  - rewrite (IH Hnd Hin). rewrite run_other_field; [reflexivity |].
    intros Heq. apply Hfresh. rewrite Heq.
    apply list_elem_of_fmap. now exists ch.
Qed.

Lemma runAll_failures vs (req : gmap string jsvalue) e :
  NoDup (map field vs) ->
  e ∈ snd (runAll vs req) <->
  exists ch i m, ch ∈ vs /\ ruleFails ch req i m /\
    e = {| value := reaches (optional ch) (stack ch) (getField req (field ch)) i;
           msg := m; path := field ch |}.
Proof.
  intros Hnd. rewrite runAll_errors by assumption. split.
  - intros (ch & Hin & H). unfold run in H.
    apply runStack_errors in H as (i & m & H & ->). now exists ch, i, m.
  - intros (ch & i & m & Hin & H & ->). exists ch. split; [assumption |].
    unfold run. apply runStack_errors. now exists i, m.
Qed.

Lemma errorsOf_validate vs (req : gmap string jsvalue) :
  errorsOf (validate vs req) = snd (runAll vs req).
Proof.
  unfold validate. destruct (runAll vs req) as [req' [| e errs]]; reflexivity.
Qed.

Lemma validate_continues vs (req : gmap string jsvalue) :
  continues (validate vs req) <-> snd (runAll vs req) = [].
Proof.
  unfold continues, validate.
  destruct (runAll vs req) as [req' [| e errs]]; simpl; split.
  - reflexivity.
  - intros _. now exists req'.
  - intros (r & H). discriminate.
  - discriminate.
Qed.

Lemma validate_rejected vs (req : gmap string jsvalue) :
  rejected (validate vs req) <-> snd (runAll vs req) <> [].
Proof.
  unfold rejected, validate.
  destruct (runAll vs req) as [req' [| e errs]]; simpl; split.
  - intros (r & H & _). discriminate.
  - congruence.
  - discriminate.
  - intros _. eexists. split; [reflexivity | split; reflexivity].
Qed.

(** A failing rule stops the request and is cited in the answer. *)
Lemma failing_rule_cited vs (req : gmap string jsvalue) ch i m :
  NoDup (map field vs) -> ch ∈ vs -> ruleFails ch req i m ->
  rejected (validate vs req) /\
  exists e, e ∈ errorsOf (validate vs req) /\ path e = field ch /\ msg e = m.
Proof.
  intros Hnd Hin Hf.
  assert (He : {| value := reaches (optional ch) (stack ch) (getField req (field ch)) i;
                  msg := m; path := field ch |} ∈ snd (runAll vs req)).
  { apply runAll_failures; [assumption |]. now exists ch, i, m. }
  split.
  - apply validate_rejected. intros Hnil. rewrite Hnil in He. inversion He.
  - rewrite errorsOf_validate. eexists. split; [exact He |]. split; reflexivity.
Qed.

(** A field is cited exactly when a rule of its chain fails. *)
Lemma cites_iff vs (req : gmap string jsvalue) f :
  NoDup (map field vs) ->
  cites (validate vs req) f <->
  exists ch i m, ch ∈ vs /\ field ch = f /\ ruleFails ch req i m.
Proof.
  intros Hnd. unfold cites. rewrite errorsOf_validate. split.
  - intros (e & He & Hp). apply runAll_failures in He; [| assumption].
    destruct He as (ch & i & m & Hin & Hf & ->). now exists ch, i, m.
  - intros (ch & i & m & Hin & <- & Hf).
    eexists. split.
    + apply runAll_failures; [assumption |]. exists ch, i, m. eauto.
    + reflexivity.
Qed.

(** The request continues exactly when no rule fails. *)
Lemma continues_iff vs (req : gmap string jsvalue) :
  NoDup (map field vs) ->
  continues (validate vs req) <->
  forall ch i m, ch ∈ vs -> ~ ruleFails ch req i m.
Proof.
  intros Hnd. rewrite validate_continues. split.
  - intros Hnil ch i m Hin Hf.
    assert (He : {| value := reaches (optional ch) (stack ch) (getField req (field ch)) i;
                    msg := m; path := field ch |} ∈ snd (runAll vs req)).
    { apply runAll_failures; [assumption |]. now exists ch, i, m. }
    rewrite Hnil in He. inversion He.
  - intros Hno. destruct (snd (runAll vs req)) as [| e errs] eqn:E; [reflexivity |].
    assert (He : e ∈ snd (runAll vs req)) by (rewrite E; left).
    apply runAll_failures in He; [| assumption].
    destruct He as (ch & i & m & Hin & Hf & _). now destruct (Hno ch i m).
Qed.

Lemma continues_or_rejected vs (req : gmap string jsvalue) :
  {continues (validate vs req)} + {rejected (validate vs req)}.
Proof.
  destruct (snd (runAll vs req)) as [| e errs] eqn:E.
  - left. now apply validate_continues.
  - right. apply validate_rejected. congruence.
Qed.

Lemma continues_not_rejected (o : Outcome) :
  continues o -> ~ rejected o.
Proof. intros (r & ->) (res & H & _). discriminate. Qed.

End RunnerFacts.

(** ** Strings and patterns *)

Section StringFacts.
Import Js Re.

Lemma length_trimStart s : String.length (trimStart s) <= String.length s.
Proof.
  induction s as [| c r IH]; simpl; [lia |].
  destruct (is_space c); simpl; lia.
Qed.

Lemma length_trimEnd s : String.length (trimEnd s) <= String.length s.
Proof.
  induction s as [| c r IH]; simpl; [lia |].
  destruct (trimEnd r) as [| d r'] eqn:E.
  - destruct (is_space c); simpl; lia.
  - simpl in *. lia.
Qed.

Lemma length_trim s : String.length (trim s) <= String.length s.
Proof.
  unfold trim. pose proof (length_trimEnd (trimStart s)).
  pose proof (length_trimStart s). lia.
Qed.

Lemma trimStart_spaces s : all_chars is_space s = true -> trimStart s = "".
Proof.
  unfold all_chars. induction s as [| c r IH]; simpl; [reflexivity |].
  intros H. apply andb_true_iff in H as [Hc Hr].
  rewrite Hc. exact (IH Hr).
Qed.

(** A string of white space only trims to the empty string. *)
Lemma trim_spaces s : all_chars is_space s = true -> trim s = "".
Proof. intros H. unfold trim. now rewrite trimStart_spaces. Qed.

Lemma is_empty_true s : is_empty s = true <-> s = "".
Proof. destruct s; simpl; split; congruence. Qed.

Lemma is_empty_false s : is_empty s = false <-> s <> "".
Proof. destruct s; simpl; split; congruence. Qed.

(** [.*[class]] at the front of a text finds a character of the class. *)
Lemma dot_star_class p s :
  seq (many is_dot) (chr p) s <> [] -> some_char p s = true.
Proof.
  unfold some_char, seq. induction s as [| c r IH]; simpl.
  - congruence.
  - intros H. apply orb_true_iff.
    destruct (p c) eqn:Hp; [now left | right].
    apply IH. intros Hnil. apply H.
    destruct (is_dot c); simpl.
    + rewrite flat_map_app, Hnil. simpl. now rewrite Hp.
    + now rewrite Hp.
Qed.

Lemma ahead_nonempty m s : ahead m s <> [] -> m s <> [].
Proof. unfold ahead. destruct (m s); congruence. Qed.

Lemma ahead_cases m s : ahead m s = [] \/ ahead m s = [s].
Proof. unfold ahead. destruct (m s); auto. Qed.

(** A password that the pattern accepts has a lowercase letter, an
    uppercase letter and a digit. *)
Lemma passwordPattern_sound s :
  test Validator.passwordPattern s = true ->
  some_char is_lower s = true /\ some_char is_upper s = true
  /\ some_char is_digit s = true.
Proof.
  unfold test, Validator.passwordPattern, seq. intros H.
  destruct (ahead_cases (fun t => flat_map (chr is_lower) (many is_dot t)) s) as [E1 | E1];
    rewrite E1 in H; [discriminate |].
  simpl in H. rewrite app_nil_r in H.
  destruct (ahead_cases (fun t => flat_map (chr is_upper) (many is_dot t)) s) as [E2 | E2];
    rewrite E2 in H; [discriminate |].
  simpl in H. rewrite app_nil_r in H.
  destruct (ahead_cases (fun t => flat_map (chr is_digit) (many is_dot t)) s) as [E3 | E3];
    rewrite E3 in H; [discriminate |].
  repeat split; apply dot_star_class, ahead_nonempty; unfold seq;
    first [rewrite E1 | rewrite E2 | rewrite E3]; discriminate.
Qed.

End StringFacts.

(** ** The rule sets *)

Ltac rule_cbn :=
  cbn -[ValidatorJs.isLength ValidatorJs.matches ValidatorJs.trim
        ValidatorJs.isEmpty ValidatorJs.isEmail ValidatorJs.isISO8601
        ValidatorJs.isIn ExpressValidator.getField].

Ltac rule_cbn_in H :=
  cbn -[ValidatorJs.isLength ValidatorJs.matches ValidatorJs.trim
        ValidatorJs.isEmpty ValidatorJs.isEmail ValidatorJs.isISO8601
        ValidatorJs.isIn ExpressValidator.getField] in H.

Ltac distinct_fields :=
  cbn;
  repeat (apply NoDup_cons; split;
          [ rewrite ?elem_of_cons, ?elem_of_nil; intuition discriminate | ]);
  apply NoDup_nil; exact I.

(** [H : ch ∈ [c1; ...; cn]] becomes one goal per chain. *)
Ltac each_chain H :=
  repeat (apply elem_of_cons in H as [-> | H]); [.. | inversion H].

Section RuleSetFacts.
Import ExpressValidator Validator Rules.

Variable normalizeEmail_js : string -> jsvalue.

Lemma registerValidation_fields :
  NoDup (map field (registerValidation normalizeEmail_js)).
Proof. distinct_fields. Qed.

Lemma loginValidation_fields :
  NoDup (map field (loginValidation normalizeEmail_js)).
Proof. distinct_fields. Qed.

Lemma appointmentValidation_fields : NoDup (map field appointmentValidation).
Proof. distinct_fields. Qed.

Lemma symptomValidation_fields : NoDup (map field symptomValidation).
Proof. distinct_fields. Qed.

(** Rule [i] of the [k]-th chain failing rejects the request and cites the
    chain's field. *)
Lemma rule_failure_cites vs (req : gmap string jsvalue) k ch i m f :
  NoDup (map field vs) -> vs !! k = Some ch -> field ch = f ->
  ruleFails ch req i m ->
  rejected (validate vs req) /\ cites (validate vs req) f.
Proof.
  intros Hnd Hk <- Hf.
  destruct (failing_rule_cited vs req ch i m Hnd) as [Hr (e & He & Hp & _)].
  - eapply list_elem_of_lookup_2. exact Hk.
  - exact Hf.
  - split; [exact Hr | now exists e].
Qed.

Lemma isLength_min n s :
  ValidatorJs.isLength n None s = (n <=? String.length s)%nat.
Proof. unfold ValidatorJs.isLength. apply andb_true_r. Qed.

Lemma isLength_max n s :
  ValidatorJs.isLength 0 (Some n) s = (String.length s <=? n)%nat.
Proof. reflexivity. Qed.

End RuleSetFacts.

Section ValidatorClaims.
Import ExpressValidator Validator Rules.

Variable normalizeEmail_js : string -> jsvalue.

Lemma password_rule_broken (req : gmap string jsvalue) :
  passwordRule (toString (getField req "password")) = false ->
  rejected (validate (registerValidation normalizeEmail_js) req)
  /\ cites (validate (registerValidation normalizeEmail_js) req) "password".
Proof.
  intros H.
  destruct (ValidatorJs.isLength 8 None (toString (getField req "password"))) eqn:HL.
  - destruct (ValidatorJs.matches passwordPattern (toString (getField req "password"))) eqn:HM.
    + apply passwordPattern_sound in HM as (H1 & H2 & H3).
      rewrite isLength_min in HL. unfold passwordRule in H.
      rewrite HL, H1, H2, H3 in H. discriminate.
    + eapply (rule_failure_cites _ req 2 _ 1);
        [apply registerValidation_fields | reflexivity | reflexivity |].
      unfold ruleFails. rule_cbn. rewrite HM. reflexivity.
  - eapply (rule_failure_cites _ req 2 _ 0);
      [apply registerValidation_fields | reflexivity | reflexivity |].
    unfold ruleFails. rule_cbn. rewrite HL. reflexivity.
Qed.

(** C7: registration rejects the password unless it has at least 8
    characters and contains a lowercase letter, an uppercase letter and a
    digit: whenever the password of a registration request (read as a
    string) breaks that rule, the request is answered with status 400 and
    the errors cite the field [password].  In particular every request
    whose password is "abcdefgh" is rejected citing [password]. *)
Theorem register_password_rule (req : gmap string jsvalue) :
  (passwordRule (toString (getField req "password")) = false ->
   rejected (validate (registerValidation normalizeEmail_js) req)
   /\ cites (validate (registerValidation normalizeEmail_js) req) "password")
  /\ (getField req "password" = JString "abcdefgh" ->
      rejected (validate (registerValidation normalizeEmail_js) req)
      /\ cites (validate (registerValidation normalizeEmail_js) req) "password").
Proof.
  split; [apply password_rule_broken |].
  intros H. apply password_rule_broken. rewrite H. reflexivity.
Qed.

(** C8: a symptom submission continues to the handler exactly when the
    trimmed symptoms text has between 10 and 2000 characters, and is
    otherwise answered with status 400 citing [symptoms]; so a text of 9
    characters fails, and a text of 10 characters that trimming leaves as
    it is succeeds. *)
Theorem symptoms_length_rule (req : gmap string jsvalue) :
  (continues (validate symptomValidation req) <->
   10 <= String.length (Js.trim (toString (getField req "symptoms"))) <= 2000)
  /\ (~ continues (validate symptomValidation req) ->
      rejected (validate symptomValidation req)
      /\ cites (validate symptomValidation req) "symptoms")
  /\ (forall s, getField req "symptoms" = JString s -> String.length s = 9 ->
      rejected (validate symptomValidation req)
      /\ cites (validate symptomValidation req) "symptoms")
  /\ (forall s, getField req "symptoms" = JString s -> String.length s = 10 ->
      Js.trim s = s ->
      continues (validate symptomValidation req)).
Proof.
  assert (Hiff : continues (validate symptomValidation req) <->
    10 <= String.length (Js.trim (toString (getField req "symptoms"))) <= 2000).
  { rewrite (continues_iff _ _ symptomValidation_fields). split.
    - intros Hno.
      destruct (ValidatorJs.isLength 10 None
                  (ValidatorJs.trim (toString (getField req "symptoms")))) eqn:H10.
      + destruct (ValidatorJs.isLength 0 (Some 2000)
                    (ValidatorJs.trim (toString (getField req "symptoms")))) eqn:H2000.
        * rewrite isLength_min in H10. rewrite isLength_max in H2000.
          apply Nat.leb_le in H10, H2000. unfold ValidatorJs.trim in *. lia.
        * exfalso. eapply (Hno _ 3); [left |].
          unfold ruleFails. rule_cbn. rewrite H2000. reflexivity.
      + exfalso. eapply (Hno _ 2); [left |].
        unfold ruleFails. rule_cbn. rewrite H10. reflexivity.
    - intros [Hlo Hhi] ch i m Hin. each_chain Hin.
      unfold ruleFails.
      destruct i as [| [| [| [| i]]]]; rule_cbn.
      + destruct (toString (getField req "symptoms")); [simpl in Hlo; lia |].
        simpl. discriminate.
      + discriminate.
      + rewrite isLength_min. unfold ValidatorJs.trim.
        apply Nat.leb_le in Hlo. rewrite Hlo. discriminate.
      + rewrite isLength_max. unfold ValidatorJs.trim.
        apply Nat.leb_le in Hhi. rewrite Hhi. discriminate.
      + discriminate. }
  assert (Hrej : ~ continues (validate symptomValidation req) ->
      rejected (validate symptomValidation req)
      /\ cites (validate symptomValidation req) "symptoms").
  { intros Hnot.
    destruct (continues_or_rejected symptomValidation req) as [Hc | Hr];
      [contradiction |].
    split; [exact Hr |].
    apply validate_rejected in Hr.
    destruct (snd (runAll symptomValidation req)) as [| e errs] eqn:E;
      [congruence |].
    assert (He : e ∈ snd (runAll symptomValidation req)) by (rewrite E; left).
    exists e. rewrite errorsOf_validate. split; [exact He |].
    apply (runAll_failures _ _ _ symptomValidation_fields) in He
      as (ch & i & m & Hin & _ & ->).
    each_chain Hin. reflexivity. }
  split; [exact Hiff |]. split; [exact Hrej |]. split.
  - intros s Hs Hlen. apply Hrej. rewrite Hiff, Hs. simpl.
    pose proof (length_trim s). lia.
  - intros s Hs Hlen Htrim. apply Hiff. rewrite Hs. simpl.
    rewrite Htrim. lia.
Qed.

(** C9: the registration request with name "A", email "x@y.com" and
    password "Abcdef12", and with neither role nor phone, breaks no
    registration rule: no error is reported and the request continues to
    the handler. *)
Theorem register_example_continues :
  continues (validate (registerValidation normalizeEmail_js)
               {[ "name" := JString "A"; "email" := JString "x@y.com";
                  "password" := JString "Abcdef12" ]})
  /\ errorsOf (validate (registerValidation normalizeEmail_js)
                 {[ "name" := JString "A"; "email" := JString "x@y.com";
                    "password" := JString "Abcdef12" ]}) = []
  /\ forall ch i m, ch ∈ registerValidation normalizeEmail_js ->
       ~ ruleFails ch {[ "name" := JString "A"; "email" := JString "x@y.com";
                         "password" := JString "Abcdef12" ]} i m.
Proof.
  assert (H : forall ch i m, ch ∈ registerValidation normalizeEmail_js ->
       ~ ruleFails ch {[ "name" := JString "A"; "email" := JString "x@y.com";
                         "password" := JString "Abcdef12" ]} i m).
  { intros ch i m Hin. unfold ruleFails. each_chain Hin.
    all: destruct i as [| [| [| [| i]]]]; rule_cbn; try discriminate.
    all: vm_compute; discriminate. }
  assert (Hc := H). apply continues_iff in Hc; [| apply registerValidation_fields].
  split; [exact Hc |]. split; [| exact H].
  destruct Hc as (req' & ->). reflexivity.
Qed.

(** C5, where the code departs from the claim: [notEmpty] runs before
    [trim], so an appointment time of three spaces breaks no rule; the
    request continues to the handler with the time trimmed to the empty
    string.  No non-empty time, blank or not, is ever cited, and a time of
    white space only is the empty string when the chains are done. *)
Theorem blank_appointmentTime_continues :
  validate appointmentValidation
    {[ "doctor" := JString "d1"; "appointmentDate" := JString "2030-01-15";
       "appointmentTime" := JString "   " ]}
  = Next {[ "doctor" := JString "d1"; "appointmentDate" := JString "2030-01-15";
            "appointmentTime" := JString "" ]}
  /\ (forall (req : gmap string jsvalue) s,
        getField req "appointmentTime" = JString s -> s <> "" ->
        ~ cites (validate appointmentValidation req) "appointmentTime")
  /\ (forall (req : gmap string jsvalue) s,
        getField req "appointmentTime" = JString s ->
        Js.all_chars Js.is_space s = true ->
        getField (fst (runAll appointmentValidation req)) "appointmentTime"
        = JString "").
Proof.
  split; [vm_compute; reflexivity |]. split.
  - intros req s Hs Hne Hc.
    apply (cites_iff _ _ _ appointmentValidation_fields) in Hc
      as (ch & i & m & Hin & Hf & Hr).
    unfold ruleFails in Hr. each_chain Hin; try discriminate Hf.
    destruct i as [| [| i]]; rule_cbn_in Hr; try discriminate Hr.
    rewrite Hs in Hr. simpl in Hr.
    apply is_empty_false in Hne. unfold ValidatorJs.isEmpty in Hr.
    rewrite Hne in Hr. discriminate.
  - intros req s Hs Hsp.
    etransitivity.
    { exact (runAll_field appointmentValidation req _
               appointmentValidation_fields
               (list_elem_of_lookup_2 appointmentValidation 2 _ eq_refl)). }
    rule_cbn. rewrite Hs. simpl.
    unfold ValidatorJs.trim. now rewrite trim_spaces.
Qed.

(** C4: when a request breaks at least one rule of the rule set applied
    to it (one chain per field), [validate] answers with status 400 and an
    object whose [success] is false and whose [errors] hold the field and
    message of every rule that failed, of every chain, not of the first
    one only; the handler is not invoked.  When no rule fails the request
    continues to the handler. *)
Theorem validate_reports_every_failure vs (req : gmap string jsvalue) :
  NoDup (map field vs) ->
  ((exists ch i m, ch ∈ vs /\ ruleFails ch req i m) ->
   exists res, validate vs req = Send res
     /\ status res = 400 /\ success res = false
     /\ (forall ch i m, ch ∈ vs -> ruleFails ch req i m ->
          exists e, e ∈ errors res /\ path e = field ch /\ msg e = m)
     /\ (forall e, e ∈ errors res ->
          exists ch i, ch ∈ vs /\ ruleFails ch req i (msg e)
                       /\ path e = field ch))
  /\ ((forall ch i m, ch ∈ vs -> ~ ruleFails ch req i m) ->
      continues (validate vs req)).
Proof.
  intros Hnd. split.
  - intros (ch0 & i0 & m0 & Hin0 & Hf0).
    destruct (failing_rule_cited vs req ch0 i0 m0 Hnd Hin0 Hf0)
      as [(res & Hres & Hst & Hsu) _].
    exists res. repeat split; try assumption.
    + intros ch i m Hin Hf.
      destruct (failing_rule_cited vs req ch i m Hnd Hin Hf) as [_ He].
      rewrite Hres in He. exact He.
    + intros e He.
      assert (He' : e ∈ errorsOf (validate vs req)) by now rewrite Hres.
      rewrite errorsOf_validate in He'.
      apply (runAll_failures _ _ _ Hnd) in He'
        as (ch & i & m & Hin & Hf & ->).
      now exists ch, i.
  - intros Hno. now apply continues_iff.
Qed.

End ValidatorClaims.

Section ValidatorWitnesses.
Import ExpressValidator Validator Rules.

(** A registration with the password "abc": both password rules fail and
    both are reported. *)
Lemma validate_reports_every_failure_witness :
  exists res,
    validate (registerValidation JString)
      {[ "name" := JString "A"; "email" := JString "x@y.com";
         "password" := JString "abc" ]} = Send res
    /\ status res = 400 /\ success res = false
    /\ (exists e, e ∈ errors res /\ path e = "password"
          /\ msg e = "Password must be at least 8 characters")
    /\ (exists e, e ∈ errors res /\ path e = "password"
          /\ msg e = "Password must contain at least one uppercase letter, one lowercase letter, and one number").
Proof.
  destruct (validate_reports_every_failure (registerValidation JString)
              {[ "name" := JString "A"; "email" := JString "x@y.com";
                 "password" := JString "abc" ]}
              (registerValidation_fields JString)) as [H _].
  destruct (registerValidation JString !! 2) as [ch |] eqn:Hch;
    [| discriminate Hch].
  assert (Hin : ch ∈ registerValidation JString)
    by exact (list_elem_of_lookup_2 _ _ _ Hch).
  injection Hch as Hch.
  destruct H as (res & Hres & Hst & Hsu & Hall & _).
  - exists ch, 0, "Password must be at least 8 characters".
    split; [exact Hin |]. rewrite <- Hch. vm_compute. reflexivity.
  - exists res. repeat split; try assumption.
    + destruct (Hall ch 0 "Password must be at least 8 characters" Hin)
        as (e & He & Hp & Hm).
      * rewrite <- Hch. vm_compute. reflexivity.
      * exists e. rewrite <- Hch in Hp. auto.
    + destruct (Hall ch 1 "Password must contain at least one uppercase letter, one lowercase letter, and one number" Hin)
        as (e & He & Hp & Hm).
      * rewrite <- Hch. vm_compute. reflexivity.
      * exists e. rewrite <- Hch in Hp. auto.
Defined.

(** The password "abcdefgh" has neither an uppercase letter nor a digit. *)
Lemma register_password_rule_witness :
  rejected (validate (registerValidation JString)
              {[ "name" := JString "A"; "email" := JString "x@y.com";
                 "password" := JString "abcdefgh" ]})
  /\ cites (validate (registerValidation JString)
              {[ "name" := JString "A"; "email" := JString "x@y.com";
                 "password" := JString "abcdefgh" ]}) "password".
Proof.
  apply (proj2 (register_password_rule JString _)). vm_compute. reflexivity.
Defined.

End ValidatorWitnesses.

(** ** The access gate of the user routes *)

Section GateClaims.
Import Auth UserRoutes.

Lemma queryIs_true (req : Request) key want :
  queryIs req key want = true <-> query req !! key = Some (QString want).
Proof.
  unfold queryIs. destruct (query req !! key) as [[s | l] |]; split;
    try discriminate.
  - intros H. apply String.eqb_eq in H. now subst.
  - intros [= ->]. apply String.eqb_refl.
Qed.

Lemma authorizeUsersList_patient (req : Request) u :
  user req = Some u -> role u = "patient" ->
  authorizeUsersList req =
  if queryIs req "role" "doctor" then Continue else Halt Forbidden.
Proof.
  intros Hu Hr. unfold authorizeUsersList, authorize. rewrite Hu, Hr.
  destruct (queryIs req "role" "doctor"); reflexivity.
Qed.

Lemma router_list (req : Request) u :
  user req = Some u -> method req = GET -> path req = [] ->
  router req =
  match authorizeUsersList req with
  | Continue => Invoke getUsers
  | Halt e => Fail e
  | Throw => Crash
  end.
Proof.
  intros Hu Hm Hp. unfold router, protect. rewrite Hu.
  unfold dispatch, routes. simpl. rewrite Hm, Hp. simpl.
  destruct (authorizeUsersList req); reflexivity.
Qed.

(** C1: for a principal with role patient, the user-list middleware lets
    the request through if and only if [req.query.role] is the string
    "doctor", and without it the request fails with Forbidden; so a GET of
    the user list by a patient reaches [getUsers] exactly with
    role=doctor in the query and is Forbidden otherwise. *)
Theorem patient_users_list (req : Request) (u : Principal) :
  user req = Some u -> role u = "patient" ->
  (authorizeUsersList req = Continue <->
   query req !! "role" = Some (QString "doctor"))
  /\ (query req !! "role" <> Some (QString "doctor") ->
      authorizeUsersList req = Halt Forbidden)
  /\ (method req = GET -> path req = [] ->
      (router req = Invoke getUsers <->
       query req !! "role" = Some (QString "doctor"))
      /\ (query req !! "role" <> Some (QString "doctor") ->
          router req = Fail Forbidden /\ statusCode Forbidden = 403)).
Proof.
  intros Hu Hr.
  pose proof (authorizeUsersList_patient req u Hu Hr) as Ha.
  pose proof (queryIs_true req "role" "doctor") as Hq.
  destruct (queryIs req "role" "doctor") eqn:E.
  - assert (Hd : query req !! "role" = Some (QString "doctor")) by now apply Hq.
    split; [| split].
    + now rewrite Ha.
    + intros Hn. contradiction.
    + intros Hm Hp. rewrite (router_list req u Hu Hm Hp), Ha. split.
      * tauto.
      * intros Hn. contradiction.
  - assert (Hd : query req !! "role" <> Some (QString "doctor")).
    { intros Hd. apply Hq in Hd. discriminate. }
    split; [| split].
    + rewrite Ha. split; [discriminate | contradiction].
    + intros _. exact Ha.
    + intros Hm Hp. rewrite (router_list req u Hu Hm Hp), Ha. split.
      * split; [discriminate | contradiction].
      * intros _. split; reflexivity.
Qed.

(** C2: a request without a principal fails with Unauthenticated (status
    401) on every route of the user router, whatever its method, path,
    query and body, and no handler is invoked. *)
Theorem no_principal_unauthenticated (req : Request) :
  user req = None ->
  protect req = Halt Unauthenticated
  /\ router req = Fail Unauthenticated
  /\ statusCode Unauthenticated = 401
  /\ forall h, router req <> Invoke h.
Proof.
  intros Hu. unfold router, protect. rewrite Hu.
  repeat split. discriminate.
Qed.

(** C3: for a principal whose role is admin or doctor, the user-list
    middleware lets the request through whatever the query holds, and a
    GET of the user list reaches [getUsers]. *)
Theorem staff_users_list (req : Request) (u : Principal) :
  user req = Some u -> role u = "admin" \/ role u = "doctor" ->
  authorizeUsersList req = Continue
  /\ (method req = GET -> path req = [] -> router req = Invoke getUsers).
Proof.
  intros Hu Hr.
  assert (Ha : authorizeUsersList req = Continue).
  { unfold authorizeUsersList, authorize. rewrite Hu.
    destruct Hr as [Hr | Hr]; rewrite Hr; reflexivity. }
  split; [exact Ha |].
  intros Hm Hp. now rewrite (router_list req u Hu Hm Hp), Ha.
Qed.

End GateClaims.

Section GateWitnesses.
Import Auth UserRoutes.

(** A patient asking for the doctors, and one asking for the patients. *)
Lemma patient_users_list_witness :
  router {| user := Some {| id := "u1"; role := "patient" |};
            method := GET; path := [];
            query := {[ "role" := QString "doctor" ]}; body := ∅ |}
  = Invoke getUsers
  /\ router {| user := Some {| id := "u1"; role := "patient" |};
               method := GET; path := [];
               query := {[ "role" := QString "patient" ]}; body := ∅ |}
     = Fail Forbidden.
Proof.
  split.
  - apply (patient_users_list
             {| user := Some {| id := "u1"; role := "patient" |};
                method := GET; path := [];
                query := {[ "role" := QString "doctor" ]}; body := ∅ |}
             {| id := "u1"; role := "patient" |});
      reflexivity.
  - apply (patient_users_list
             {| user := Some {| id := "u1"; role := "patient" |};
                method := GET; path := [];
                query := {[ "role" := QString "patient" ]}; body := ∅ |}
             {| id := "u1"; role := "patient" |});
      try reflexivity.
    vm_compute. discriminate.
Defined.

(** An anonymous DELETE of a user. *)
Lemma no_principal_unauthenticated_witness :
  router {| user := None; method := DELETE; path := ["42"];
            query := ∅; body := ∅ |} = Fail Unauthenticated.
Proof.
  apply (no_principal_unauthenticated
           {| user := None; method := DELETE; path := ["42"];
              query := ∅; body := ∅ |}).
  reflexivity.
Defined.

(** A doctor listing users filtered by role=admin. *)
Lemma staff_users_list_witness :
  router {| user := Some {| id := "u2"; role := "doctor" |};
            method := GET; path := [];
            query := {[ "role" := QString "admin" ]}; body := ∅ |}
  = Invoke getUsers.
Proof.
  apply (staff_users_list
           {| user := Some {| id := "u2"; role := "doctor" |};
              method := GET; path := [];
              query := {[ "role" := QString "admin" ]}; body := ∅ |}
           {| id := "u2"; role := "doctor" |});
    try reflexivity.
  right. reflexivity.
Defined.

End GateWitnesses.

(** ** The booking form *)

Section FormClaims.
Import Appointments.

Variable Number : string -> float.
Variable parseDate : string -> option Z.
Variable now : Z.
Variable startOfDay : Z -> Z.

Lemma validateForm_verdict (fd : FormData) (errs : gmap string string) :
  snd (validateForm Number parseDate now startOfDay fd errs) =
  Js.is_empty (validateDoctor (doctor fd))
  && Js.is_empty (validateDate parseDate now startOfDay (appointmentDate fd))
  && Js.is_empty (validateTime Number (appointmentTime fd))
  && Js.is_empty (validateReason (reason fd)).
Proof. reflexivity. Qed.

Lemma validateForm_errors (fd : FormData) (errs : gmap string string) :
  fst (validateForm Number parseDate now startOfDay fd errs) !! "reason" =
  Some (validateReason (reason fd)).
Proof.
  unfold validateForm, validateField. simpl. apply lookup_insert_eq.
Qed.

(** A reason that is empty, or shorter than 10 characters once trimmed,
    gets the error message. *)
Lemma validateReason_short (r : string) :
  r = "" \/ String.length (Js.trim r) < 10 ->
  validateReason r = "Reason field must be at least 10 characters".
Proof.
  intros H. unfold validateReason.
  destruct (Js.is_empty r || Js.is_empty (Js.trim r)); [reflexivity |].
  assert (Hlt : String.length (Js.trim r) < 10).
  { destruct H as [-> | H]; [simpl; lia | exact H]. }
  apply Nat.ltb_lt in Hlt. rewrite Hlt. reflexivity.
Qed.

Lemma handleSubmit_invalid reply (st : State) :
  snd (validateForm Number parseDate now startOfDay (formData st) (errors st)) = false ->
  handleSubmit Number parseDate now startOfDay reply st =
  ({| formData := formData st;
      errors := fst (validateForm Number parseDate now startOfDay (formData st) (errors st));
      showForm := showForm st; showSuccess := showSuccess st |}, []).
Proof.
  intros H. unfold handleSubmit.
  destruct (validateForm Number parseDate now startOfDay (formData st) (errors st))
    as [errs valid].
  simpl in *. subst valid. reflexivity.
Qed.

End FormClaims.

Section ReasonClaim.
Import Appointments ExpressValidator Validator Rules.

(** C10: in the booking form the reason is mandatory.  When the reason is
    empty, or shorter than 10 characters once trimmed, [validateForm] is
    false whatever the other fields hold, and [handleSubmit] ends without
    any effect (no appointment-creation request is sent) with the form
    data kept and the reason's error message set.  The server is laxer:
    its rule set cites [reason] only for a reason that is present and
    longer than 500 characters once trimmed. *)
Theorem reason_is_mandatory (Number : string -> float)
    (parseDate : string -> option Z) (now : Z) (startOfDay : Z -> Z)
    (reply : CreateReply) (st : State) :
  reason (formData st) = ""
  \/ String.length (Js.trim (reason (formData st))) < 10 ->
  snd (validateForm Number parseDate now startOfDay (formData st) (Appointments.errors st)) = false
  /\ snd (handleSubmit Number parseDate now startOfDay reply st) = []
  /\ (forall data, CreateAppointment data ∉
        snd (handleSubmit Number parseDate now startOfDay reply st))
  /\ formData (fst (handleSubmit Number parseDate now startOfDay reply st)) = formData st
  /\ Appointments.errors (fst (handleSubmit Number parseDate now startOfDay reply st)) !! "reason"
     = Some "Reason field must be at least 10 characters"
  /\ (forall req : gmap string jsvalue,
        cites (validate appointmentValidation req) "reason" <->
        getField req "reason" <> JUndefined
        /\ 500 < String.length (Js.trim (toString (getField req "reason")))).
Proof.
  intros H. apply validateReason_short in H.
  assert (Hv : snd (validateForm Number parseDate now startOfDay (formData st)
                      (Appointments.errors st)) = false).
  { rewrite validateForm_verdict, H. apply andb_false_r. }
  rewrite (handleSubmit_invalid _ _ _ _ reply st Hv).
  cbn [fst snd formData Appointments.errors].
  split; [exact Hv |]. split; [reflexivity |].
  split; [intros data Hin; inversion Hin |].
  split; [reflexivity |].
  split; [now rewrite validateForm_errors, H |].
  intros req. rewrite (cites_iff _ _ _ appointmentValidation_fields). split.
  - intros (ch & i & m & Hin & Hf & Hr).
    unfold ruleFails in Hr. each_chain Hin; try discriminate Hf.
    destruct i as [| [| i]]; rule_cbn_in Hr; try discriminate Hr.
    destruct (is_undefined (getField req "reason")) eqn:Hd.
    + rewrite Hd in Hr. discriminate Hr.
    + rule_cbn_in Hr. split.
      * intros E. rewrite E in Hd. discriminate Hd.
      * rewrite isLength_max in Hr. unfold ValidatorJs.trim in Hr.
        destruct (_ <=? 500)%nat eqn:L in Hr; [discriminate Hr |].
        apply Nat.leb_gt in L. exact L.
  - intros [Hu Hlen].
    destruct (appointmentValidation !! 3) as [ch |] eqn:Hch; [| discriminate Hch].
    exists ch, 1, "Reason cannot exceed 500 characters".
    split; [exact (list_elem_of_lookup_2 _ _ _ Hch) |].
    injection Hch as <-. split; [reflexivity |].
    unfold ruleFails. rule_cbn.
    assert (Hd : is_undefined (getField req "reason") = false)
      by (destruct (getField req "reason"); [contradiction | reflexivity ..]).
    rewrite Hd. rule_cbn.
    rewrite isLength_max. unfold ValidatorJs.trim.
    apply Nat.leb_gt in Hlen. rewrite Hlen. reflexivity.
Qed.

(** The reason "flu" on an otherwise filled form. *)
Lemma reason_is_mandatory_witness :
  snd (handleSubmit (fun _ => 0%float) (fun _ => None) 0%Z (fun t => t) Created
         {| formData := {| doctor := "d1"; appointmentDate := "2030-01-15";
                           appointmentTime := "10:30"; reason := "flu";
                           symptoms := "" |};
            Appointments.errors := ∅; showForm := true; showSuccess := false |})
  = [].
Proof.
  apply (reason_is_mandatory (fun _ => 0%float) (fun _ => None) 0%Z
           (fun t => t) Created
           {| formData := {| doctor := "d1"; appointmentDate := "2030-01-15";
                             appointmentTime := "10:30"; reason := "flu";
                             symptoms := "" |};
              Appointments.errors := ∅; showForm := true; showSuccess := false |}).
  right. vm_compute. lia.
Defined.

End ReasonClaim.

(** * Further properties of the code *)

(** ** Patterns of the registration rules *)

Section PatternFacts.
Import Js Re Rules.

Lemma dot_star_class_first p s :
  (forall c, p c = true -> is_dot c = true) ->
  test (seq (many is_dot) (chr p)) s = some_char p (firstLine s).
Proof.
  intros Hp. unfold test, seq, some_char.
  induction s as [| c r IH]; simpl; [reflexivity |].
  destruct (is_dot c) eqn:Hd; simpl.
  - rewrite flat_map_app. simpl. rewrite app_nil_r.
    destruct (p c) eqn:Hc; simpl.
    + destruct (flat_map (chr p) (many is_dot r)); reflexivity.
    + rewrite app_nil_r. exact IH.
  - destruct (p c) eqn:Hc; [| reflexivity].
    apply Hp in Hc. congruence.
Qed.

Lemma class_is_dot lo hi c :
  (13 < lo)%N -> in_range lo hi c = true -> is_dot c = true.
Proof.
  unfold in_range, is_dot. intros Hlo H.
  apply andb_true_iff in H as [H1 _]. apply N.leb_le in H1.
  apply negb_true_iff, orb_false_iff. split; apply N.eqb_neq; lia.
Qed.

Lemma test_ahead m s : test (ahead m) s = test m s.
Proof. unfold test, ahead. destruct (m s); reflexivity. Qed.

Lemma passwordPattern_first s :
  test Validator.passwordPattern s =
  some_char is_lower (firstLine s) && some_char is_upper (firstLine s)
  && some_char is_digit (firstLine s).
Proof.
  rewrite <- !dot_star_class_first by (intros c; apply class_is_dot; lia).
  unfold Validator.passwordPattern, test, seq, ahead.
  destruct (flat_map (chr is_lower) (many is_dot s)); [reflexivity |].
  simpl. rewrite app_nil_r.
  destruct (flat_map (chr is_upper) (many is_dot s)); [reflexivity |].
  simpl. rewrite app_nil_r.
  destruct (flat_map (chr is_digit) (many is_dot s)); reflexivity.
Qed.
Lemma append_cons c a b :
  (String c a ++ b)%string = String c (a ++ b)%string.
Proof. reflexivity. Qed.

Lemma all_chars_app Q a b :
  all_chars Q (a ++ b)%string = all_chars Q a && all_chars Q b.
Proof.
  unfold all_chars. induction a as [| c a IH]; [reflexivity |].
  rewrite append_cons. simpl. rewrite IH. apply andb_assoc.
Qed.

Lemma length_app_string a b :
  String.length (a ++ b)%string = String.length a + String.length b.
Proof.
  induction a as [| c a IH]; [reflexivity |].
  rewrite append_cons. simpl. now rewrite IH.
Qed.

Lemma append_assoc_string a b c :
  ((a ++ b) ++ c)%string = (a ++ (b ++ c))%string.
Proof.
  induction a as [| x a IH]; [reflexivity |].
  rewrite !append_cons. now rewrite IH.
Qed.

Lemma append_empty_r a : (a ++ "")%string = a.
Proof.
  induction a as [| x a IH]; [reflexivity |].
  rewrite append_cons. now rewrite IH.
Qed.

Lemma consumes_weaken Q lo hi lo' hi' m :
  lo' <= lo -> hi <= hi' -> consumes Q lo hi m -> consumes Q lo' hi' m.
Proof.
  intros H1 H2 H s r Hin. destruct (H s r Hin) as (pre & E & HQ & Hl).
  exists pre. repeat split; try assumption; lia.
Qed.

Lemma consumes_eps Q : consumes Q 0 0 eps.
Proof.
  intros s r [<- | []]. exists "". repeat split; simpl; lia.
Qed.

Lemma consumes_chr Q p :
  (forall c, p c = true -> Q c = true) -> consumes Q 1 1 (chr p).
Proof.
  intros Hp [| c s] r; simpl; [intros [] |].
  destruct (p c) eqn:Hc; [| intros []].
  intros [<- | []]. exists (String c "").
  unfold all_chars. simpl. rewrite (Hp c Hc). repeat split; lia.
Qed.

Lemma consumes_seq Q a b c d m1 m2 :
  consumes Q a b m1 -> consumes Q c d m2 ->
  consumes Q (a + c) (b + d) (seq m1 m2).
Proof.
  intros H1 H2 s r Hin. unfold seq in Hin.
  apply in_flat_map in Hin as (t & Ht & Hr).
  destruct (H1 s t Ht) as (p1 & E1 & Q1 & L1).
  destruct (H2 t r Hr) as (p2 & E2 & Q2 & L2).
  exists (p1 ++ p2)%string. subst s t.
  rewrite append_assoc_string, all_chars_app, length_app_string, Q1, Q2.
  repeat split; lia.
Qed.

Lemma consumes_alt Q lo hi m1 m2 :
  consumes Q lo hi m1 -> consumes Q lo hi m2 -> consumes Q lo hi (alt m1 m2).
Proof.
  intros H1 H2 s r Hin. unfold alt in Hin.
  apply in_app_or in Hin as [Hin | Hin]; eauto.
Qed.

Lemma consumes_opt Q lo hi m : consumes Q lo hi m -> consumes Q 0 hi (opt m).
Proof.
  intros H. apply consumes_alt.
  - eapply consumes_weaken; [| | exact H]; lia.
  - eapply consumes_weaken; [| | apply consumes_eps]; lia.
Qed.

Lemma consumes_lit Q w :
  all_chars Q w = true -> consumes Q (String.length w) (String.length w) (lit w).
Proof.
  induction w as [| c w IH]; simpl; intros H.
  - apply consumes_eps.
  - unfold all_chars in H. simpl in H. apply andb_true_iff in H as [Hc Hw].
    apply (consumes_seq Q 1 1).
    + apply consumes_chr. intros x Hx. unfold is_char in Hx.
      apply Ascii.eqb_eq in Hx. now subst.
    + now apply IH.
Qed.

Lemma consumes_times Q m n : consumes Q 1 1 m -> consumes Q n n (times n m).
Proof.
  intros H. induction n as [| n IH]; simpl.
  - apply consumes_eps.
  - apply (consumes_seq Q 1 1 n n); assumption.
Qed.

Lemma consumes_upto Q m n : consumes Q 1 1 m -> consumes Q 0 n (upto n m).
Proof.
  intros H. induction n as [| n IH]; simpl.
  - apply consumes_eps.
  - apply (consumes_opt Q 1). apply (consumes_seq Q 1 1 0 n); assumption.
Qed.

Lemma consumes_rep Q m lo hi :
  lo <= hi -> consumes Q 1 1 m -> consumes Q lo hi (rep lo hi m).
Proof.
  intros Hle H. unfold rep.
  eapply consumes_weaken;
    [| | apply (consumes_seq Q lo lo 0 (hi - lo));
         [now apply consumes_times | now apply consumes_upto]]; lia.
Qed.

Lemma consumes_eos Q : consumes Q 0 0 eos.
Proof.
  intros [| c s] r; simpl; [| intros []].
  intros [<- | []]. exists "". repeat split; simpl; lia.
Qed.

Lemma finishes_eos : finishes eos.
Proof. intros [| c s] r; simpl; [intros [<- | []]; reflexivity | intros []]. Qed.

Lemma finishes_seq m1 m2 : finishes m2 -> finishes (seq m1 m2).
Proof.
  intros H s r Hin. unfold seq in Hin.
  apply in_flat_map in Hin as (t & _ & Hr). now apply (H t).
Qed.

Lemma consumes_whole Q lo hi m s :
  consumes Q lo hi m -> finishes m -> test m s = true ->
  all_chars Q s = true /\ lo <= String.length s <= hi.
Proof.
  intros H Hf Ht. unfold test in Ht.
  destruct (m s) as [| r l] eqn:E; [discriminate |].
  assert (Hin : In r (m s)) by (rewrite E; now left).
  destruct (H s r Hin) as (pre & Es & HQ & HL).
  rewrite (Hf s r Hin), append_empty_r in Es. subst pre. now split.
Qed.

Lemma phoneChar_digit c : is_digit c = true -> phoneChar c = true.
Proof. unfold phoneChar. now intros ->. Qed.

Lemma phoneChar_separator c :
  Validator.phoneSeparator c = true -> phoneChar c = true.
Proof.
  unfold Validator.phoneSeparator, is_char.
  intros H. apply orb_true_iff in H as [H | H].
  - apply orb_true_iff in H as [H | H].
    + apply Ascii.eqb_eq in H. subst c. reflexivity.
    + unfold phoneChar. rewrite H. apply orb_true_r.
  - apply Ascii.eqb_eq in H. subst c. reflexivity.
Qed.

Lemma phonePattern_shape s :
  test Validator.phonePattern s = true ->
  all_chars phoneChar s = true /\ 3 <= String.length s <= 24.
Proof.
  apply consumes_whole; unfold Validator.phonePattern.
  - pose proof (consumes_chr phoneChar is_digit phoneChar_digit) as Hd.
    pose proof (consumes_chr phoneChar _ phoneChar_separator) as Hs.
    apply (consumes_seq phoneChar 0 1 3 23);
      [apply (consumes_opt phoneChar 1); apply (consumes_lit phoneChar "+"); reflexivity |].
    apply (consumes_seq phoneChar 0 1 3 22);
      [apply (consumes_opt phoneChar 1); apply (consumes_lit phoneChar "("); reflexivity |].
    apply (consumes_seq phoneChar 1 4 2 18);
      [apply consumes_rep; [lia | exact Hd] |].
    apply (consumes_seq phoneChar 0 1 2 17);
      [apply (consumes_opt phoneChar 1); apply (consumes_lit phoneChar ")"); reflexivity |].
    apply (consumes_seq phoneChar 0 1 2 16);
      [apply (consumes_opt phoneChar 1); exact Hs |].
    apply (consumes_seq phoneChar 0 1 2 15);
      [apply (consumes_opt phoneChar 1); apply (consumes_lit phoneChar "("); reflexivity |].
    apply (consumes_seq phoneChar 1 4 1 11);
      [apply consumes_rep; [lia | exact Hd] |].
    apply (consumes_seq phoneChar 0 1 1 10);
      [apply (consumes_opt phoneChar 1); apply (consumes_lit phoneChar ")"); reflexivity |].
    apply (consumes_seq phoneChar 0 1 1 9);
      [apply (consumes_opt phoneChar 1); exact Hs |].
    apply (consumes_seq phoneChar 1 9 0 0);
      [apply consumes_rep; [lia | exact Hd] | apply consumes_eos].
  - repeat apply finishes_seq. apply finishes_eos.
Qed.

End PatternFacts.

(** ** More of the rule sets *)

Section RunnerFrame.
Import ExpressValidator Validator Rules.

Lemma strict_equal_refl v : strict_equal v v = true.
Proof.
  destruct v as [| | b | s]; simpl; try reflexivity.
  - now destruct b.
  - apply String.eqb_refl.
Qed.

Lemma runStack_other_lookup opt p items (req : gmap string jsvalue) v q :
  p <> q -> fst (runStack opt p items req v) !! q = req !! q.
Proof.
  intros Hpq. revert req v. induction items as [| it rest IH]; intros req v.
  - reflexivity.
  - destruct (opt && is_undefined v) eqn:E.
    + rewrite runStack_skip by assumption. apply IH.
    + rewrite runStack_step by assumption. simpl. rewrite IH.
      destruct (strict_equal _ _); [reflexivity |].
      now rewrite lookup_insert_ne.
Qed.

(** [validate] leaves the fields that no chain names as they came. *)
Lemma runAll_other_lookup vs (req : gmap string jsvalue) q :
  q ∉ map field vs -> fst (runAll vs req) !! q = req !! q.
Proof.
  revert req. induction vs as [| ch rest IH]; intros req Hq.
  - reflexivity.
  - rewrite runAll_cons. simpl. simpl in Hq.
    apply not_elem_of_cons in Hq as [Hne Hq].
    rewrite (IH _ Hq). unfold run. apply runStack_other_lookup. congruence.
Qed.

(** A chain whose items all leave the value as it is writes nothing. *)
Lemma runStack_fixed opt p items (req : gmap string jsvalue) v :
  getField req p = v ->
  (forall i, i <= length items -> reaches opt items v i = v) ->
  fst (runStack opt p items req v) = req.
Proof.
  revert req. induction items as [| it rest IH]; intros req Hv Hfix.
  - reflexivity.
  - destruct (opt && is_undefined v) eqn:E.
    + rewrite runStack_skip by assumption. apply IH; [assumption |].
      intros i Hi. specialize (Hfix (S i)). simpl in Hfix. rewrite E in Hfix.
      apply Hfix. lia.
    + rewrite runStack_step by assumption. simpl.
      assert (Hs : sanitized it v = v).
      { specialize (Hfix 1). simpl in Hfix. rewrite E in Hfix.
        destruct rest; apply Hfix; lia. }
      rewrite Hs, Hv, strict_equal_refl. apply IH; [assumption |].
      intros i Hi. specialize (Hfix (S i)). simpl in Hfix.
      rewrite E, Hs in Hfix. apply Hfix. lia.
Qed.

Lemma validate_next vs (req req' : gmap string jsvalue) :
  validate vs req = Next req' -> req' = fst (runAll vs req).
Proof.
  unfold validate. destruct (runAll vs req) as [r [| e errs]]; simpl.
  - now intros [= <-].
  - discriminate.
Qed.

Lemma validate_next_iff vs (req : gmap string jsvalue) :
  continues (validate vs req) <->
  validate vs req = Next (fst (runAll vs req)).
Proof.
  split.
  - intros (req' & H). rewrite H. f_equal. now apply validate_next.
  - intros H. eexists. exact H.
Qed.

End RunnerFrame.

Section TrimFacts.
Import Js Rules.

Lemma trimStart_no_lead s : no_lead (trimStart s) = true.
Proof.
  induction s as [| c r IH]; simpl; [reflexivity |].
  destruct (is_space c) eqn:E; [exact IH |]. simpl. now rewrite E.
Qed.

Lemma trimStart_id s : no_lead s = true -> trimStart s = s.
Proof.
  destruct s as [| c r]; simpl; [reflexivity |].
  intros H. apply negb_true_iff in H. now rewrite H.
Qed.

Lemma trimEnd_no_lead s : no_lead s = true -> no_lead (trimEnd s) = true.
Proof.
  destruct s as [| c r]; simpl; [reflexivity |].
  intros H. destruct (trimEnd r); simpl.
  - apply negb_true_iff in H. rewrite H. simpl. now rewrite H.
  - exact H.
Qed.

Lemma trimEnd_idem s : trimEnd (trimEnd s) = trimEnd s.
Proof.
  induction s as [| c r IH]; simpl; [reflexivity |].
  destruct (trimEnd r) as [| d t] eqn:E.
  - destruct (is_space c) eqn:Hc; simpl; [reflexivity |]. now rewrite Hc.
  - change (trimEnd (String c (String d t))) with
      (match trimEnd (String d t) with
       | EmptyString => if is_space c then EmptyString else String c EmptyString
       | r' => String c r'
       end).
    rewrite IH. reflexivity.
Qed.

(** Trimming a trimmed text changes nothing. *)
Lemma trim_idem s : trim (trim s) = trim s.
Proof.
  unfold trim.
  rewrite (trimStart_id (trimEnd (trimStart s)))
    by apply trimEnd_no_lead, trimStart_no_lead.
  apply trimEnd_idem.
Qed.

End TrimFacts.

Section RegistrationRules.
Import ExpressValidator Validator Rules.

Variable normalizeEmail_js : string -> jsvalue.

(** X1: registration cites [name] exactly when the name, trimmed, is empty
    or longer than 100 characters; an absent name counts as empty. *)
Theorem register_name_rule (req : gmap string jsvalue) :
  cites (validate (registerValidation normalizeEmail_js) req) "name" <->
  Js.trim (toString (getField req "name")) = ""
  \/ 100 < String.length (Js.trim (toString (getField req "name"))).
Proof.
  rewrite (cites_iff _ _ _ (registerValidation_fields _)). split.
  - intros (ch & i & m & Hin & Hf & Hr).
    unfold ruleFails in Hr. each_chain Hin; try discriminate Hf.
    destruct i as [| [| [| i]]]; rule_cbn_in Hr; try discriminate Hr.
    + left. unfold ValidatorJs.isEmpty, ValidatorJs.trim in Hr.
      destruct (Js.is_empty _) eqn:E in Hr; [| discriminate Hr].
      now apply is_empty_true.
    + right. rewrite isLength_max in Hr. unfold ValidatorJs.trim in Hr.
      destruct (_ <=? 100)%nat eqn:L in Hr; [discriminate Hr |].
      now apply Nat.leb_gt.
  - intros [He | Hl].
    + eexists _, 1, _. split; [eapply (list_elem_of_lookup_2 _ 0); reflexivity |].
      split; [reflexivity |]. unfold ruleFails. rule_cbn.
      unfold ValidatorJs.isEmpty, ValidatorJs.trim. rewrite He. reflexivity.
    + eexists _, 2, _. split; [eapply (list_elem_of_lookup_2 _ 0); reflexivity |].
      split; [reflexivity |]. unfold ruleFails. rule_cbn.
      rewrite isLength_max. unfold ValidatorJs.trim.
      apply Nat.leb_gt in Hl. rewrite Hl. reflexivity.
Qed.

(** X2: registration cites [role] exactly when a role is present and is
    none of patient, doctor and admin; an absent role is never cited, a
    [null] or empty one is. *)
Theorem register_role_rule (req : gmap string jsvalue) :
  cites (validate (registerValidation normalizeEmail_js) req) "role" <->
  getField req "role" <> JUndefined
  /\ toString (getField req "role") <> "patient"
  /\ toString (getField req "role") <> "doctor"
  /\ toString (getField req "role") <> "admin".
Proof.
  assert (Hin3 : forall s, ValidatorJs.isIn ["patient"; "doctor"; "admin"] s = false <->
                           s <> "patient" /\ s <> "doctor" /\ s <> "admin").
  { intros s. unfold ValidatorJs.isIn. simpl.
    rewrite !orb_false_iff, !String.eqb_neq. tauto. }
  rewrite (cites_iff _ _ _ (registerValidation_fields _)). split.
  - intros (ch & i & m & Hin & Hf & Hr).
    unfold ruleFails in Hr. each_chain Hin; try discriminate Hf.
    destruct i as [| i]; rule_cbn_in Hr; try discriminate Hr.
    destruct (is_undefined (getField req "role")) eqn:Hd; [discriminate Hr |].
    split.
    + intros E. rewrite E in Hd. discriminate Hd.
    + apply Hin3.
      destruct (ValidatorJs.isIn _ _); [discriminate Hr | reflexivity].
  - intros [Hu Hn]. apply Hin3 in Hn.
    eexists _, 0, _. split; [eapply (list_elem_of_lookup_2 _ 3); reflexivity |].
    split; [reflexivity |]. unfold ruleFails. rule_cbn.
    assert (Hd : is_undefined (getField req "role") = false)
      by (destruct (getField req "role"); [contradiction | reflexivity ..]).
    rewrite Hd, Hn. reflexivity.
Qed.

(** X3: registration cites [phone] exactly when a phone is present and
    its trimmed text does not match the pattern.  A phone that passes is,
    once trimmed, made of digits, [+ ( ) - .] and white space only and has
    between 3 and 24 characters. *)
Theorem register_phone_rule (req : gmap string jsvalue) :
  (cites (validate (registerValidation normalizeEmail_js) req) "phone" <->
   getField req "phone" <> JUndefined
   /\ Re.test phonePattern (Js.trim (toString (getField req "phone"))) = false)
  /\ (~ cites (validate (registerValidation normalizeEmail_js) req) "phone" ->
      getField req "phone" <> JUndefined ->
      Js.all_chars phoneChar (Js.trim (toString (getField req "phone"))) = true
      /\ 3 <= String.length (Js.trim (toString (getField req "phone"))) <= 24).
Proof.
  assert (Hiff : cites (validate (registerValidation normalizeEmail_js) req) "phone" <->
    getField req "phone" <> JUndefined
    /\ Re.test phonePattern (Js.trim (toString (getField req "phone"))) = false).
  { rewrite (cites_iff _ _ _ (registerValidation_fields _)). split.
    - intros (ch & i & m & Hin & Hf & Hr).
      unfold ruleFails in Hr. each_chain Hin; try discriminate Hf.
      destruct i as [| [| i]]; rule_cbn_in Hr; try discriminate Hr.
      destruct (is_undefined (getField req "phone")) eqn:Hd.
      + rewrite Hd in Hr. discriminate Hr.
      + rule_cbn_in Hr. split.
        * intros E. rewrite E in Hd. discriminate Hd.
        * unfold ValidatorJs.matches, ValidatorJs.trim in Hr.
          destruct (Re.test _ _); [discriminate Hr | reflexivity].
    - intros [Hu Hn].
      eexists _, 1, _. split; [eapply (list_elem_of_lookup_2 _ 4); reflexivity |].
      split; [reflexivity |]. unfold ruleFails. rule_cbn.
      assert (Hd : is_undefined (getField req "phone") = false)
        by (destruct (getField req "phone"); [contradiction | reflexivity ..]).
      rewrite Hd. rule_cbn. unfold ValidatorJs.matches, ValidatorJs.trim.
      rewrite Hn. reflexivity. }
  split; [exact Hiff |].
  intros Hno Hu. apply phonePattern_shape.
  destruct (Re.test phonePattern (Js.trim (toString (getField req "phone")))) eqn:E;
    [reflexivity |].
  exfalso. apply Hno, Hiff. now split.
Qed.

(** X4: registration cites [password] exactly when the password is shorter
    than 8 characters or lacks a lowercase letter, an uppercase letter or
    a digit before its first line break: the pattern's [.] stops at a line
    terminator, so what follows one does not count. *)
Theorem register_password_exact (req : gmap string jsvalue) :
  cites (validate (registerValidation normalizeEmail_js) req) "password" <->
  passwordAccepted (toString (getField req "password")) = false.
Proof.
  assert (E : passwordAccepted (toString (getField req "password")) =
              ValidatorJs.isLength 8 None (toString (getField req "password"))
              && Re.test passwordPattern (toString (getField req "password"))).
  { unfold passwordAccepted.
    rewrite passwordPattern_first, isLength_min. now rewrite !andb_assoc. }
  rewrite E. clear E.
  rewrite (cites_iff _ _ _ (registerValidation_fields _)). split.
  - intros (ch & i & m & Hin & Hf & Hr).
    unfold ruleFails in Hr. each_chain Hin; try discriminate Hf.
    destruct i as [| [| i]]; rule_cbn_in Hr; try discriminate Hr.
    + destruct (ValidatorJs.isLength 8 None _); [discriminate Hr | reflexivity].
    + unfold ValidatorJs.matches in Hr.
      destruct (Re.test passwordPattern _); [discriminate Hr |].
      apply andb_false_r.
  - intros H. apply andb_false_iff in H as [H | H].
    + eexists _, 0, _. split; [eapply (list_elem_of_lookup_2 _ 2); reflexivity |].
      split; [reflexivity |]. unfold ruleFails. rule_cbn.
      rewrite H. reflexivity.
    + eexists _, 1, _. split; [eapply (list_elem_of_lookup_2 _ 2); reflexivity |].
      split; [reflexivity |]. unfold ruleFails. rule_cbn.
      unfold ValidatorJs.matches. rewrite H. reflexivity.
Qed.

(** X6: when registration continues, the handler reads the name trimmed,
    the email trimmed and normalized, the password exactly as it was sent,
    the role as it was sent, the phone trimmed when one was sent and still
    absent otherwise, and every other field of the body untouched. *)
Theorem register_sanitized_request (req req' : gmap string jsvalue) :
  validate (registerValidation normalizeEmail_js) req = Next req' ->
  getField req' "name" = JString (Js.trim (toString (getField req "name")))
  /\ getField req' "email"
     = normalizeEmail_js (Js.trim (toString (getField req "email")))
  /\ getField req' "password" = getField req "password"
  /\ getField req' "role" = getField req "role"
  /\ getField req' "phone"
     = (if is_undefined (getField req "phone") then JUndefined
        else JString (Js.trim (toString (getField req "phone"))))
  /\ forall f, f ∉ ["name"; "email"; "password"; "role"; "phone"] ->
       req' !! f = req !! f.
Proof.
  intros H. apply validate_next in H. subst req'.
  pose proof (fun k ch (E : registerValidation normalizeEmail_js !! k = Some ch) =>
                runAll_field _ req ch (registerValidation_fields _)
                  (list_elem_of_lookup_2 _ k ch E)) as F.
  pose proof (F 0 _ eq_refl) as F0. pose proof (F 1 _ eq_refl) as F1.
  pose proof (F 2 _ eq_refl) as F2. pose proof (F 3 _ eq_refl) as F3.
  pose proof (F 4 _ eq_refl) as F4. clear F.
  split; [| split; [| split; [| split; [| split]]]].
  - etransitivity; [exact F0 |]. rule_cbn. reflexivity.
  - etransitivity; [exact F1 |]. rule_cbn. reflexivity.
  - etransitivity; [exact F2 |]. rule_cbn. reflexivity.
  - etransitivity; [exact F3 |]. rule_cbn.
    destruct (is_undefined (getField req "role")); reflexivity.
  - etransitivity; [exact F4 |]. rule_cbn.
    destruct (getField req "phone"); reflexivity.
  - intros f Hf. now apply runAll_other_lookup.
Qed.

End RegistrationRules.

Section SymptomRules.
Import ExpressValidator Validator Rules.

Lemma symptoms_bounds (req : gmap string jsvalue) :
  continues (validate symptomValidation req) ->
  10 <= String.length (Js.trim (toString (getField req "symptoms"))) <= 2000.
Proof.
  rewrite (continues_iff _ _ symptomValidation_fields). intros Hno.
  destruct (ValidatorJs.isLength 10 None
              (ValidatorJs.trim (toString (getField req "symptoms")))) eqn:H10.
  - destruct (ValidatorJs.isLength 0 (Some 2000)
                (ValidatorJs.trim (toString (getField req "symptoms")))) eqn:H2000.
    + rewrite isLength_min in H10. rewrite isLength_max in H2000.
      apply Nat.leb_le in H10, H2000. unfold ValidatorJs.trim in *. lia.
    + exfalso. eapply (Hno _ 3); [left |].
      unfold ruleFails. rule_cbn. rewrite H2000. reflexivity.
  - exfalso. eapply (Hno _ 2); [left |].
    unfold ruleFails. rule_cbn. rewrite H10. reflexivity.
Qed.

(** X7: when a symptom submission continues, the handler reads the
    symptoms trimmed and everything else untouched, and the request it
    reads is a fixed point of the middleware: validating it again
    continues and changes nothing. *)
Theorem symptoms_sanitized_fixed (req req' : gmap string jsvalue) :
  validate symptomValidation req = Next req' ->
  getField req' "symptoms"
  = JString (Js.trim (toString (getField req "symptoms")))
  /\ (forall f, f <> "symptoms" -> req' !! f = req !! f)
  /\ validate symptomValidation req' = Next req'.
Proof.
  intros H.
  assert (Hc : continues (validate symptomValidation req)) by now exists req'.
  apply symptoms_bounds in Hc as [Hlo Hhi].
  apply validate_next in H.
  assert (Hs : getField req' "symptoms"
               = JString (Js.trim (toString (getField req "symptoms")))).
  { subst req'. etransitivity;
      [exact (runAll_field symptomValidation req _ symptomValidation_fields
                (list_elem_of_lookup_2 symptomValidation 0 _ eq_refl)) |].
    rule_cbn. reflexivity. }
  split; [exact Hs |]. split.
  - intros f Hf. subst req'. apply runAll_other_lookup. cbn.
    rewrite elem_of_cons, elem_of_nil. intros [-> | []]. now apply Hf.
  - clear H.
    assert (Hfix : fst (runAll symptomValidation req') = req').
    { unfold symptomValidation. rewrite runAll_cons.
      cbn [fst runAll]. unfold run. apply runStack_fixed; [reflexivity |].
      intros i Hi. rule_cbn. rewrite Hs.
      destruct i as [| [| [| [| i]]]]; rule_cbn;
        unfold ValidatorJs.trim; rewrite ?trim_idem; try reflexivity.
      now destruct i. }
    rewrite <- Hfix at 2. apply validate_next_iff.
    apply (continues_iff _ _ symptomValidation_fields).
    intros ch i m Hin. each_chain Hin. unfold ruleFails.
    destruct i as [| [| [| [| i]]]]; rule_cbn; rewrite ?Hs; rule_cbn;
      try discriminate.
    + destruct (Js.trim (toString (getField req "symptoms")));
        [simpl in Hlo; lia | simpl; discriminate].
    + rewrite isLength_min. unfold ValidatorJs.trim. rewrite trim_idem.
      apply Nat.leb_le in Hlo. rewrite Hlo. discriminate.
    + rewrite isLength_max. unfold ValidatorJs.trim. rewrite trim_idem.
      apply Nat.leb_le in Hhi. rewrite Hhi. discriminate.
Qed.

End SymptomRules.

Section SanitizedWitnesses.
Import ExpressValidator Validator Rules.

(** A registration with blanks around the name and an extra field. *)
Lemma register_sanitized_request_witness :
  getField {[ "name" := JString "Ann"; "email" := JString "x@y.com";
              "password" := JString " Abcdef12 "; "note" := JString " n " ]}
    "password"
  = getField {[ "name" := JString "  Ann "; "email" := JString "x@y.com";
                "password" := JString " Abcdef12 "; "note" := JString " n " ]}
      "password".
Proof.
  apply (register_sanitized_request JString
           {[ "name" := JString "  Ann "; "email" := JString "x@y.com";
              "password" := JString " Abcdef12 "; "note" := JString " n " ]}
           {[ "name" := JString "Ann"; "email" := JString "x@y.com";
              "password" := JString " Abcdef12 "; "note" := JString " n " ]}).
  vm_compute. reflexivity.
Defined.

(** A symptom text with blanks around it. *)
Lemma symptoms_sanitized_fixed_witness :
  validate symptomValidation {[ "symptoms" := JString "mild headache" ]}
  = Next {[ "symptoms" := JString "mild headache" ]}.
Proof.
  apply (symptoms_sanitized_fixed
           {[ "symptoms" := JString "  mild headache  " ]}
           {[ "symptoms" := JString "mild headache" ]}).
  vm_compute. reflexivity.
Defined.

End SanitizedWitnesses.

(** ** More of the user router *)

Ltac split_ifs_in H :=
  repeat match type of H with
         | context [if ?b then _ else _] => destruct b eqn:?
         end.

Section RouterFacts.
Import Auth UserRoutes.

Lemma role_in_two (r a b : string) :
  existsb (String.eqb r) [a; b] = true -> r = a \/ r = b.
Proof.
  simpl. rewrite orb_false_r. intros H.
  apply orb_true_iff in H as [H | H]; apply String.eqb_eq in H; auto.
Qed.

Lemma role_in_one (r a : string) :
  existsb (String.eqb r) [a] = true -> r = a.
Proof. simpl. rewrite orb_false_r. apply String.eqb_eq. Qed.

(** X8: whenever the user router invokes a handler, a principal is
    attached and the method and the principal's role fit the handler:
    [updateUser] only for PUT by an admin, [deleteUser] only for DELETE by
    an admin, [getUserById] only for GET or HEAD by an admin or a doctor,
    [getUsers] only for an admin, a doctor, or a patient asking for
    role=doctor.  No handler is ever invoked for POST or PATCH. *)
Theorem router_role_gate (req : Request) (h : Handler) :
  router req = Invoke h ->
  exists u, user req = Some u /\
    match h with
    | getDashboardStats | getHealthTrends =>
        method req = GET \/ method req = HEAD
    | getUsers =>
        (method req = GET \/ method req = HEAD)
        /\ (role u = "admin" \/ role u = "doctor"
            \/ (role u = "patient"
                /\ query req !! "role" = Some (QString "doctor")))
    | getUserById =>
        (method req = GET \/ method req = HEAD)
        /\ (role u = "admin" \/ role u = "doctor")
    | updateUser => method req = PUT /\ role u = "admin"
    | deleteUser => method req = DELETE /\ role u = "admin"
    end.
Proof.
  unfold router, protect. destruct (user req) as [u |] eqn:Hu; [| discriminate].
  intros H. exists u. split; [reflexivity |].
  unfold dispatch, routes, runMiddlewares, authorizeUsersList, authorize in H.
  cbn [verb pattern middlewares handler] in H. rewrite Hu in H.
  destruct (method req), (path req) as [| seg [| seg2 rest]];
    cbn [matchMethod matchPath andb] in H; split_ifs_in H;
    try discriminate H; injection H as <-.
  all: try (left; reflexivity).
  all: try (right; reflexivity).
  all: split; [first [reflexivity | left; reflexivity | right; reflexivity] |].
  all: repeat match goal with
         | H : existsb _ [_; _] = true |- _ => apply role_in_two in H
         | H : existsb _ [_] = true |- _ => apply role_in_one in H
         | H : _ && _ = true |- _ => apply andb_true_iff in H as [? ?]
         | H : String.eqb _ _ = true |- _ => apply String.eqb_eq in H
         | H : queryIs _ _ _ = true |- _ => apply queryIs_true in H
         end; tauto.
Qed.




End RouterFacts.

Section RouterWitnesses.
Import Auth UserRoutes.

(** An admin updating a user. *)
Lemma router_role_gate_witness :
  exists u, Some {| id := "a1"; role := "admin" |} = Some u
            /\ PUT = PUT /\ role u = "admin".
Proof.
  apply (router_role_gate
           {| user := Some {| id := "a1"; role := "admin" |}; method := PUT;
              path := ["42"]; query := ∅; body := ∅ |} updateUser).
  reflexivity.
Defined.


End RouterWitnesses.

(** ** More of the booking form *)

Section FormFacts.
Import Appointments.

Variable Number : string -> float.
Variable parseDate : string -> option Z.
Variable now : Z.
Variable startOfDay : Z -> Z.

Lemma validateReason_ok (r : string) :
  validateReason r = "" <-> 10 <= String.length (Js.trim r).
Proof.
  unfold validateReason. split.
  - destruct (Js.is_empty r || Js.is_empty (Js.trim r)); [discriminate |].
    destruct (String.length (Js.trim r) <? 10)%nat eqn:L; [discriminate |].
    intros _. now apply Nat.ltb_ge.
  - intros H.
    assert (Hr : Js.is_empty r = false).
    { destruct r; [simpl in H; lia | reflexivity]. }
    assert (Ht : Js.is_empty (Js.trim r) = false).
    { destruct (Js.trim r); [simpl in H; lia | reflexivity]. }
    rewrite Hr, Ht. simpl. apply Nat.ltb_ge in H. now rewrite H.
Qed.

Lemma validateDoctor_ok (d : string) : validateDoctor d = "" <-> d <> "".
Proof.
  unfold validateDoctor. destruct d; simpl; split; congruence.
Qed.

Lemma is_empty_eq (s : string) : Js.is_empty s = true <-> s = "".
Proof. destruct s; simpl; split; congruence. Qed.

Lemma validateForm_valid (fd : FormData) (errs : gmap string string) :
  snd (validateForm Number parseDate now startOfDay fd errs) = true <->
  doctor fd <> ""
  /\ validateDate parseDate now startOfDay (appointmentDate fd) = ""
  /\ validateTime Number (appointmentTime fd) = ""
  /\ 10 <= String.length (Js.trim (reason fd)).
Proof.
  rewrite validateForm_verdict, !andb_true_iff, !is_empty_eq.
  rewrite validateDoctor_ok, validateReason_ok. tauto.
Qed.

Lemma handleSubmit_valid reply (st : State) :
  snd (validateForm Number parseDate now startOfDay (formData st) (errors st)) = true ->
  handleSubmit Number parseDate now startOfDay reply st =
  match reply with
  | Created =>
      ({| formData := emptyForm; errors := ∅;
          showForm := false; showSuccess := true |},
       [CreateAppointment (formData st); FetchAppointments])
  | Rejected message =>
      ({| formData := formData st;
          errors := fst (validateForm Number parseDate now startOfDay (formData st) (errors st));
          showForm := showForm st; showSuccess := showSuccess st |},
       [CreateAppointment (formData st);
        Alert (match message with
               | Some m => if Js.is_empty m then "Failed to create appointment" else m
               | None => "Failed to create appointment"
               end)])
  end.
Proof.
  intros H. unfold handleSubmit.
  destruct (validateForm Number parseDate now startOfDay (formData st) (errors st))
    as [errs valid].
  simpl in *. subst valid. reflexivity.
Qed.

(** X11: [handleSubmit] sends the creation request, with the form data as
    they are, exactly when a doctor is chosen, the trimmed reason has at
    least 10 characters, and the date and the time pass their checks; an
    empty date and an empty time pass them, so they do not hold the
    request back. *)
Theorem handleSubmit_sends (reply : CreateReply) (st : State) :
  (CreateAppointment (formData st)
     ∈ snd (handleSubmit Number parseDate now startOfDay reply st) <->
   doctor (formData st) <> ""
   /\ validateDate parseDate now startOfDay (appointmentDate (formData st)) = ""
   /\ validateTime Number (appointmentTime (formData st)) = ""
   /\ 10 <= String.length (Js.trim (reason (formData st))))
  /\ (forall data,
        CreateAppointment data
          ∈ snd (handleSubmit Number parseDate now startOfDay reply st) ->
        data = formData st)
  /\ (appointmentDate (formData st) = "" ->
      validateDate parseDate now startOfDay (appointmentDate (formData st)) = "")
  /\ (appointmentTime (formData st) = "" ->
      validateTime Number (appointmentTime (formData st)) = "").
Proof.
  rewrite <- (validateForm_valid (formData st) (errors st)).
  destruct (snd (validateForm Number parseDate now startOfDay (formData st) (errors st)))
    eqn:Hv.
  - rewrite (handleSubmit_valid reply st Hv).
    split; [| split; [| split]].
    + split; [reflexivity |]. intros _. destruct reply; left.
    + intros data Hin. destruct reply; cbn [snd] in Hin;
        apply elem_of_cons in Hin as [[= ->] | Hin]; try reflexivity;
        apply elem_of_cons in Hin as [Hin | Hin]; try discriminate Hin;
        inversion Hin.
    + intros ->. reflexivity.
    + intros ->. reflexivity.
  - rewrite (handleSubmit_invalid _ _ _ _ reply st Hv). cbn [snd].
    split; [| split; [| split]].
    + split; [intros Hin; inversion Hin | discriminate].
    + intros data Hin. inversion Hin.
    + intros ->. reflexivity.
    + intros ->. reflexivity.
Qed.

(** X12: for a form that passes validation, a creation that succeeds
    empties the form, clears the errors, closes the form, shows the
    success banner and fetches the appointments again; a creation that
    fails keeps the form data and the form open, raises one alert and does
    not fetch the appointments. *)
Theorem handleSubmit_outcome (message : option string) (st : State) :
  snd (validateForm Number parseDate now startOfDay (formData st) (errors st)) = true ->
  (fst (handleSubmit Number parseDate now startOfDay Created st)
   = {| formData := emptyForm; errors := ∅; showForm := false; showSuccess := true |}
   /\ snd (handleSubmit Number parseDate now startOfDay Created st)
      = [CreateAppointment (formData st); FetchAppointments])
  /\ (formData (fst (handleSubmit Number parseDate now startOfDay (Rejected message) st))
      = formData st
      /\ showForm (fst (handleSubmit Number parseDate now startOfDay (Rejected message) st))
         = showForm st
      /\ showSuccess (fst (handleSubmit Number parseDate now startOfDay (Rejected message) st))
         = showSuccess st
      /\ (FetchAppointments
           ∉ snd (handleSubmit Number parseDate now startOfDay (Rejected message) st))
      /\ exists text,
           snd (handleSubmit Number parseDate now startOfDay (Rejected message) st)
           = [CreateAppointment (formData st); Alert text]
           /\ text <> "").
Proof.
  intros Hv. rewrite !(handleSubmit_valid _ st Hv). cbn [fst snd formData showForm showSuccess].
  split; [split; reflexivity |].
  split; [reflexivity |]. split; [reflexivity |]. split; [reflexivity |]. split.
  - intros Hin. apply elem_of_cons in Hin as [Hin | Hin]; [discriminate Hin |].
    apply elem_of_cons in Hin as [Hin | Hin]; [discriminate Hin | inversion Hin].
  - eexists. split; [reflexivity |].
    destruct message as [m |]; [| discriminate].
    destruct m; simpl; discriminate.
Qed.

Lemma noError_insert (errs : gmap string string) name e :
  noError (<[name := e]> errs) name = Js.is_empty e.
Proof. unfold noError. now rewrite lookup_insert_eq. Qed.

Lemma noError_insert_ne (errs : gmap string string) name other e :
  name <> other -> noError (<[name := e]> errs) other = noError errs other.
Proof. intros H. unfold noError. now rewrite lookup_insert_ne. Qed.

(** X13: once [validateForm] has set the errors, the submit button is
    enabled ([isFormValid]) exactly when the form passed validation and
    has a date and a time: an empty date or time passes [validateForm] but
    keeps the button disabled. *)
Theorem isFormValid_after_validateForm (st : State) :
  isFormValid
    {| formData := formData st;
       errors := fst (validateForm Number parseDate now startOfDay (formData st) (errors st));
       showForm := showForm st; showSuccess := showSuccess st |} = true <->
  snd (validateForm Number parseDate now startOfDay (formData st) (errors st)) = true
  /\ appointmentDate (formData st) <> ""
  /\ appointmentTime (formData st) <> "".
Proof.
  rewrite validateForm_verdict. unfold isFormValid, validateForm, validateField.
  cbn [fst snd formData errors String.eqb Ascii.eqb Bool.eqb].
  rewrite !noError_insert.
  rewrite !noError_insert_ne by discriminate. rewrite !noError_insert.
  rewrite !noError_insert_ne by discriminate. rewrite !noError_insert.
  rewrite !noError_insert_ne by discriminate. rewrite !noError_insert.
  rewrite !andb_true_iff, !negb_true_iff, !is_empty_false.
  rewrite !is_empty_eq, validateDoctor_ok, validateReason_ok.
  split; [tauto |].
  intros ((((Hd & Hdt) & Ht) & Hr) & Hnd & Hnt).
  repeat split; try assumption.
  intros E. rewrite E in Hr. simpl in Hr. lia.
Qed.

End FormFacts.

Section TimeFacts.
Import Appointments.

Lemma add_nan_r (x : float) : Prim2SF (x + nan)%float = S754_nan.
Proof.
  rewrite add_spec. change (Prim2SF nan) with S754_nan.
  unfold SF64add, SFadd. destruct (Prim2SF x) as [| | | ]; try reflexivity.
  all: try (destruct s; reflexivity).
Qed.

Lemma ltb_nan_l (x y : float) : Prim2SF x = S754_nan -> (x <? y)%float = false.
Proof. intros H. rewrite ltb_spec, H. reflexivity. Qed.

Lemma ltb_nan_r (x y : float) : Prim2SF y = S754_nan -> (x <? y)%float = false.
Proof.
  intros H. rewrite ltb_spec, H. unfold SFltb, SFcompare.
  destruct (Prim2SF x) as [| [] | | []]; reflexivity.
Qed.

Lemma split_no_separator sep s :
  Js.some_char (Js.is_char sep) s = false -> Js.split sep s = [s].
Proof.
  unfold Js.some_char, Js.is_char. induction s as [| c r IH]; simpl;
    [reflexivity |].
  intros H. apply orb_false_iff in H as [Hc Hr].
  rewrite Ascii.eqb_sym in Hc. rewrite Hc, (IH Hr). reflexivity.
Qed.

(** X14: a time without a colon is never rejected by [validateTime],
    whatever number its text stands for: [minutes] is [undefined], the
    hour is NaN, and both comparisons with the business hours are
    false. *)
Theorem validateTime_without_colon (Number : string -> float) (time : string) :
  Js.some_char (Js.is_char ":") time = false ->
  validateTime Number time = "".
Proof.
  intros H. unfold validateTime.
  destruct (Js.is_empty time); [reflexivity |].
  rewrite (split_no_separator _ _ H). cbn [map nth].
  change (nan / 60)%float with nan.
  rewrite (ltb_nan_l _ _ (add_nan_r _)), (ltb_nan_r _ _ (add_nan_r _)).
  reflexivity.
Qed.

(** The text "25" with a [Number] that reads it as 25. *)
Lemma validateTime_without_colon_witness :
  validateTime (fun _ => 25%float) "25" = "".
Proof.
  apply (validateTime_without_colon (fun _ => 25%float) "25"). reflexivity.
Defined.

(** A filled form whose creation is rejected by the server. *)
Lemma handleSubmit_outcome_witness :
  snd (handleSubmit (fun _ => 10%float) (fun _ => None) 0%Z (fun t => t) Created
         {| formData := {| doctor := "d1"; appointmentDate := "2030-01-15";
                           appointmentTime := "10:30";
                           reason := "yearly check-up"; symptoms := "" |};
            errors := ∅; showForm := true; showSuccess := false |})
  = [CreateAppointment
       {| doctor := "d1"; appointmentDate := "2030-01-15";
          appointmentTime := "10:30"; reason := "yearly check-up";
          symptoms := "" |};
     FetchAppointments].
Proof.
  apply (handleSubmit_outcome (fun _ => 10%float) (fun _ => None) 0%Z
           (fun t => t) None
           {| formData := {| doctor := "d1"; appointmentDate := "2030-01-15";
                             appointmentTime := "10:30";
                             reason := "yearly check-up"; symptoms := "" |};
              errors := ∅; showForm := true; showSuccess := false |}).
  vm_compute. reflexivity.
Defined.

End TimeFacts.

(** ** The patient dashboard *)

Section DashboardFacts.
Import PatientDashboard.

Variables Stats Analysis Trend : Type.

Lemma sameId_eq (a b : option string) : sameId a b = true <-> a = b.
Proof.
  destruct a as [x |], b as [y |]; simpl; split; try congruence.
  - intros H. apply String.eqb_eq in H. now subst.
  - intros [= ->]. apply String.eqb_refl.
Qed.

Lemma patientAppointments_elem user (l : list Appointment) a :
  a ∈ patientAppointments user l <->
  a ∈ l /\ patientId a = currentUserId user.
Proof.
  unfold patientAppointments. rewrite !list_elem_of_In, filter_In, sameId_eq.
  reflexivity.
Qed.

Lemma patientAppointments_sublist user (l : list Appointment) :
  sublist (patientAppointments user l) l.
Proof.
  unfold patientAppointments. induction l as [| a l IH]; simpl.
  - constructor.
  - destruct (sameId (patientId a) (currentUserId user)).
    + now apply sublist_skip.
    + now apply sublist_cons.
Qed.

(** X15: after a fetch whose statistics request succeeded, the dashboard
    shows at most three appointments; they are the first of the current
    patient's appointments, in the order of the response; each of them
    belongs to the patient; and when one of the patient's appointments is
    not shown, three others are.  Whatever the requests did, [loading] is
    false afterwards. *)
Theorem recentAppointments_spec (user : option User) (s : Stats)
    (appointments : list Appointment) (analyses : option (list Analysis))
    (trendsResponse : option (list Trend)) (st : State Stats Analysis Trend) :
  length (recentAppointments _ _ _
            (fetchData _ _ _ user (Some s) (Some appointments) analyses trendsResponse st)) <= 3
  /\ recentAppointments _ _ _
       (fetchData _ _ _ user (Some s) (Some appointments) analyses trendsResponse st)
     `prefix_of` patientAppointments user appointments
  /\ sublist
       (recentAppointments _ _ _
          (fetchData _ _ _ user (Some s) (Some appointments) analyses trendsResponse st))
       appointments
  /\ (forall a,
        a ∈ recentAppointments _ _ _
              (fetchData _ _ _ user (Some s) (Some appointments) analyses trendsResponse st) ->
        patientId a = currentUserId user)
  /\ (forall a, a ∈ appointments -> patientId a = currentUserId user ->
        a ∉ recentAppointments _ _ _
              (fetchData _ _ _ user (Some s) (Some appointments) analyses trendsResponse st) ->
        length (recentAppointments _ _ _
                  (fetchData _ _ _ user (Some s) (Some appointments) analyses trendsResponse st)) = 3)
  /\ (forall statsResponse appointmentsResponse,
        loading _ _ _
          (fetchData _ _ _ user statsResponse appointmentsResponse analyses trendsResponse st)
        = false).
Proof.
  cbn [fetchData recentAppointments default].
  set (mine := patientAppointments user appointments).
  split; [rewrite length_take; apply Nat.le_min_l |].
  split; [apply prefix_take |].
  split; [etransitivity; [apply sublist_take | apply patientAppointments_sublist] |].
  split; [| split].
  - intros a Hin. apply elem_of_take in Hin as (i & Hi & _).
    apply list_elem_of_lookup_2 in Hi.
    now apply patientAppointments_elem in Hi as [_ Hi].
  - intros a Hin Hown Hnot.
    destruct (decide (length mine <= 3)) as [Hle | Hgt].
    + exfalso. apply Hnot. rewrite take_ge by exact Hle.
      apply patientAppointments_elem. now split.
    + subst mine. rewrite length_take. apply Nat.min_l.
      apply Nat.nle_gt in Hgt. apply Nat.lt_le_incl. exact Hgt.
  - intros [x |] ar; reflexivity.
Qed.

(** X16: which appointments count as the current patient's.  Without a
    user id (no user, or a user with neither [_id] nor [id]) they are the
    appointments without a patient, since [undefined === undefined].  With
    a user id they are the appointments whose patient is that id, given
    either as the id itself or as a patient document with that [_id]. *)
Theorem patientAppointments_ownership (user : option User)
    (appointments : list Appointment) (a : Appointment) :
  (currentUserId user = None ->
   (a ∈ patientAppointments user appointments <->
    a ∈ appointments /\ patient a = NoPatient))
  /\ (forall uid, currentUserId user = Some uid ->
        uid <> "" -> uid <> "[object Object]" ->
        (a ∈ patientAppointments user appointments <->
         a ∈ appointments
         /\ (patient a = PatientId uid \/ patient a = PatientDoc (Some uid)))).
Proof.
  split.
  - intros Hu. rewrite patientAppointments_elem, Hu. unfold patientId.
    destruct (patient a) as [| s | [i |]]; try (destruct (Js.is_empty i));
      split; intros [Hin H]; (split; [exact Hin |]); congruence.
  - intros uid Hu Hne Hobj. rewrite patientAppointments_elem, Hu.
    unfold patientId.
    destruct (patient a) as [| s | [i |]].
    + split; intros [Hin H]; [discriminate H | destruct H; discriminate].
    + split; intros [Hin H]; (split; [exact Hin |]).
      * left. congruence.
      * destruct H as [H | H]; congruence.
    + destruct (Js.is_empty i) eqn:E.
      * apply is_empty_true in E. subst i.
        split; intros [Hin H]; [congruence |].
        destruct H as [H | H]; congruence.
      * split; intros [Hin H]; (split; [exact Hin |]).
        -- right. congruence.
        -- destruct H as [H | H]; congruence.
    + split; intros [Hin H]; [congruence |].
      destruct H as [H | H]; discriminate.
Qed.

End DashboardFacts.

(** ** The appointment rule set as a whole *)

Section AppointmentRules.
Import ExpressValidator Validator Rules.

(** X17: an appointment creation continues to the handler exactly when
    the doctor is not empty, the date is an ISO 8601 date, the time is not
    empty before trimming, and the reason is absent or has at most 500
    characters once trimmed.  The handler then reads the doctor and the
    date as sent, the time trimmed, and the reason trimmed when there is
    one. *)
Theorem appointment_accepted (req : gmap string jsvalue) :
  (continues (validate appointmentValidation req) <->
   toString (getField req "doctor") <> ""
   /\ ValidatorJs.isISO8601 (toString (getField req "appointmentDate")) = true
   /\ toString (getField req "appointmentTime") <> ""
   /\ (getField req "reason" = JUndefined
       \/ String.length (Js.trim (toString (getField req "reason"))) <= 500))
  /\ (forall req', validate appointmentValidation req = Next req' ->
      getField req' "doctor" = getField req "doctor"
      /\ getField req' "appointmentDate" = getField req "appointmentDate"
      /\ getField req' "appointmentTime"
         = JString (Js.trim (toString (getField req "appointmentTime")))
      /\ getField req' "reason"
         = (if is_undefined (getField req "reason") then JUndefined
            else JString (Js.trim (toString (getField req "reason"))))).
Proof.
  split.
  - rewrite (continues_iff _ _ appointmentValidation_fields). split.
    + intros Hno. repeat split.
      * intros E.
        eapply (Hno _ 0); [eapply (list_elem_of_lookup_2 _ 0); reflexivity |].
        unfold ruleFails. rule_cbn. rewrite E. reflexivity.
      * destruct (ValidatorJs.isISO8601 (toString (getField req "appointmentDate"))) eqn:E;
          [reflexivity | exfalso].
        eapply (Hno _ 1); [eapply (list_elem_of_lookup_2 _ 1); reflexivity |].
        unfold ruleFails. rule_cbn. rewrite E. reflexivity.
      * intros E.
        eapply (Hno _ 0); [eapply (list_elem_of_lookup_2 _ 2); reflexivity |].
        unfold ruleFails. rule_cbn. rewrite E. reflexivity.
      * destruct (is_undefined (getField req "reason")) eqn:Hd.
        -- left. destruct (getField req "reason"); try discriminate Hd.
           reflexivity.
        -- right.
           destruct (ValidatorJs.isLength 0 (Some 500)
                       (ValidatorJs.trim (toString (getField req "reason")))) eqn:L.
           ++ rewrite isLength_max in L. now apply Nat.leb_le in L.
           ++ exfalso.
              eapply (Hno _ 1); [eapply (list_elem_of_lookup_2 _ 3); reflexivity |].
              unfold ruleFails. rule_cbn. rewrite Hd. rule_cbn. rewrite L.
              reflexivity.
    + intros (Hd & Hi & Ht & Hr) ch i m Hin. unfold ruleFails. each_chain Hin.
      * destruct i as [| i]; rule_cbn; try discriminate.
        apply is_empty_false in Hd. unfold ValidatorJs.isEmpty. rewrite Hd.
        discriminate.
      * destruct i as [| [| i]]; rule_cbn; try discriminate.
        -- destruct (toString (getField req "appointmentDate"));
             [discriminate Hi | simpl; discriminate].
        -- rewrite Hi. discriminate.
      * destruct i as [| [| i]]; rule_cbn; try discriminate.
        apply is_empty_false in Ht. unfold ValidatorJs.isEmpty. rewrite Ht.
        discriminate.
      * destruct i as [| [| i]]; rule_cbn; try discriminate.
        destruct Hr as [Hr | Hr].
        -- rewrite Hr. discriminate.
        -- destruct (is_undefined (getField req "reason")) eqn:Hu.
           ++ rewrite Hu. discriminate.
           ++ rule_cbn. rewrite isLength_max. unfold ValidatorJs.trim.
              apply Nat.leb_le in Hr. rewrite Hr. discriminate.
  - intros req' H. apply validate_next in H. subst req'.
    pose proof (fun k ch (E : appointmentValidation !! k = Some ch) =>
                  runAll_field _ req ch appointmentValidation_fields
                    (list_elem_of_lookup_2 _ k ch E)) as F.
    pose proof (F 0 _ eq_refl) as F0. pose proof (F 1 _ eq_refl) as F1.
    pose proof (F 2 _ eq_refl) as F2. pose proof (F 3 _ eq_refl) as F3.
    clear F.
    split; [| split; [| split]].
    + etransitivity; [exact F0 |]. rule_cbn. reflexivity.
    + etransitivity; [exact F1 |]. rule_cbn. reflexivity.
    + etransitivity; [exact F2 |]. rule_cbn. reflexivity.
    + etransitivity; [exact F3 |]. rule_cbn.
      destruct (getField req "reason"); reflexivity.
Qed.

End AppointmentRules.

(** ** The date of an appointment *)

Section IsoFacts.
Import Js Re ValidatorJs Rules.

Lemma is_digit_digitChar k : k < 10 -> is_digit (digitChar k) = true.
Proof.
  intros H. do 10 (destruct k as [| k]; [reflexivity |]). lia.
Qed.

Lemma digit_not_sign c : is_digit c = true -> one_of "+-" c = false.
Proof.
  destruct c as [[] [] [] [] [] [] [] []]; vm_compute; congruence.
Qed.

Lemma seq_single (m1 m2 : matcher) s t : m1 s = [t] -> seq m1 m2 s = m2 t.
Proof. intros H. unfold seq. rewrite H. simpl. apply app_nil_r. Qed.

Lemma chr_true p c r : p c = true -> chr p (String c r) = [r].
Proof. intros H. simpl. now rewrite H. Qed.

Lemma iso_year_plain y1 y2 y3 y4 r :
  is_digit y1 = true -> is_digit y2 = true -> is_digit y3 = true ->
  is_digit y4 = true ->
  iso_year (String y1 (String y2 (String y3 (String y4 (String "-" r)))))
  = [String "-" r].
Proof.
  intros H1 H2 H3 H4. unfold iso_year.
  rewrite (seq_single _ _ _ (String y1 (String y2 (String y3 (String y4 (String "-" r)))))).
  - rewrite (seq_single _ _ _ (String "-" r)); [reflexivity |].
    unfold times, digit.
    rewrite (seq_single _ _ _ _ (chr_true _ _ _ H1)).
    rewrite (seq_single _ _ _ _ (chr_true _ _ _ H2)).
    rewrite (seq_single _ _ _ _ (chr_true _ _ _ H3)).
    rewrite (seq_single _ _ _ _ (chr_true _ _ _ H4)).
    reflexivity.
  - unfold opt, alt, eps, chr. now rewrite (digit_not_sign _ H1).
Qed.

Lemma iso8601_after_year s : iso8601 s = flat_map afterYear (iso_year s).
Proof. reflexivity. Qed.

Lemma month_day_accepted :
  forallb (fun m => forallb (fun d =>
     test afterYear (String "-" (pad2 m ++ String "-" (pad2 d))%string))
     (List.seq 1 31)) (List.seq 1 12) = true.
Proof. vm_compute. reflexivity. Qed.

Lemma dateText_accepted y m d :
  y < 10 * 1000 -> 1 <= m <= 12 -> 1 <= d <= 31 ->
  isISO8601 (dateText y m d) = true.
Proof.
  intros Hy Hm Hd. unfold isISO8601, test, dateText.
  rewrite iso8601_after_year, iso_year_plain.
  - cbn [flat_map]. rewrite app_nil_r.
    pose proof month_day_accepted as H.
    rewrite forallb_forall in H.
    assert (Hm' : In m (List.seq 1 12)) by (apply in_seq; lia).
    specialize (H m Hm'). rewrite forallb_forall in H.
    apply (H d). apply in_seq. lia.
  - apply is_digit_digitChar. apply Nat.Div0.div_lt_upper_bound. lia.
  - apply is_digit_digitChar. apply Nat.mod_upper_bound. lia.
  - apply is_digit_digitChar. apply Nat.mod_upper_bound. lia.
  - apply is_digit_digitChar. apply Nat.mod_upper_bound. lia.
Qed.
Lemma eats_eps Q : eats Q eps.
Proof. intros s r [<- | []]. now exists "". Qed.

Lemma eats_chr Q p : (forall c, p c = true -> Q c = true) -> eats Q (chr p).
Proof.
  intros Hp [| c s] r; simpl; [intros [] |].
  destruct (p c) eqn:Hc; [| intros []].
  intros [<- | []]. exists (String c "").
  unfold all_chars. simpl. now rewrite (Hp c Hc).
Qed.

Lemma eats_seq Q m1 m2 : eats Q m1 -> eats Q m2 -> eats Q (seq m1 m2).
Proof.
  intros H1 H2 s r Hin. unfold seq in Hin.
  apply in_flat_map in Hin as (t & Ht & Hr).
  destruct (H1 s t Ht) as (p1 & E1 & Q1).
  destruct (H2 t r Hr) as (p2 & E2 & Q2).
  exists (p1 ++ p2)%string. subst s t.
  now rewrite append_assoc_string, all_chars_app, Q1, Q2.
Qed.

Lemma eats_alt Q m1 m2 : eats Q m1 -> eats Q m2 -> eats Q (alt m1 m2).
Proof.
  intros H1 H2 s r Hin. unfold alt in Hin.
  apply in_app_or in Hin as [Hin | Hin]; eauto.
Qed.

Lemma eats_opt Q m : eats Q m -> eats Q (opt m).
Proof. intros H. apply eats_alt; [exact H | apply eats_eps]. Qed.

Lemma eats_lit Q w : all_chars Q w = true -> eats Q (lit w).
Proof.
  induction w as [| c w IH]; simpl; intros H.
  - apply eats_eps.
  - unfold all_chars in H. simpl in H. apply andb_true_iff in H as [Hc Hw].
    apply eats_seq; [| now apply IH].
    apply eats_chr. intros x Hx. unfold is_char in Hx.
    apply Ascii.eqb_eq in Hx. now subst.
Qed.

Lemma eats_times Q m n : eats Q m -> eats Q (times n m).
Proof.
  intros H. induction n as [| n IH]; simpl.
  - apply eats_eps.
  - now apply eats_seq.
Qed.

Lemma eats_many Q p : (forall c, p c = true -> Q c = true) -> eats Q (many p).
Proof.
  intros Hp s. induction s as [| c s IH]; intros r; simpl.
  - intros [<- | []]. now exists "".
  - destruct (p c) eqn:Hc.
    + intros Hin. apply in_app_or in Hin as [Hin | [<- | []]].
      * destruct (IH r Hin) as (pre & E & HQ). exists (String c pre).
        rewrite append_cons, <- E. unfold all_chars in *. simpl.
        now rewrite (Hp c Hc), HQ.
      * now exists "".
    + intros [<- | []]. now exists "".
Qed.

Lemma eats_many1 Q p : (forall c, p c = true -> Q c = true) -> eats Q (many1 p).
Proof. intros Hp. apply eats_seq; [now apply eats_chr | now apply eats_many]. Qed.

Lemma eats_notahead Q m : eats Q (notahead m).
Proof.
  intros s r. unfold notahead. destruct (m s); [| intros []].
  intros [<- | []]. now exists "".
Qed.

Lemma eats_eos Q : eats Q eos.
Proof.
  intros [| c s] r; simpl; [| intros []]. intros [<- | []]. now exists "".
Qed.

Lemma eats_capture_opt Q a k :
  Q a = true -> eats Q (k (String a "")) -> eats Q (k "") ->
  eats Q (capture_opt a k).
Proof.
  intros Ha Hk1 Hk0 s r Hin. unfold capture_opt in Hin.
  apply in_app_or in Hin as [Hin | Hin].
  - revert Hin. apply eats_seq; [| exact Hk1].
    apply eats_chr. intros x Hx. unfold is_char in Hx.
    apply Ascii.eqb_eq in Hx. now subst.
  - now apply Hk0.
Qed.

Lemma consumes_notahead Q m : consumes Q 0 0 (notahead m).
Proof.
  intros s r. unfold notahead. destruct (m s); [| intros []].
  intros [<- | []]. exists "". repeat split; simpl; lia.
Qed.

Lemma isoChar_digit c : is_digit c = true -> isoChar c = true.
Proof. unfold isoChar. now intros ->. Qed.

Lemma isoChar_range lo hi c :
  (48 <= lo)%N -> (hi <= 57)%N -> in_range lo hi c = true -> isoChar c = true.
Proof.
  intros Hlo Hhi H. apply isoChar_digit. unfold is_digit, in_range in *.
  apply andb_true_iff in H as [H1 H2].
  apply N.leb_le in H1, H2. apply andb_true_iff. split; apply N.leb_le; lia.
Qed.

Lemma isoChar_one_of cs c :
  all_chars isoChar cs = true -> one_of cs c = true -> isoChar c = true.
Proof.
  unfold all_chars, one_of. induction (list_ascii_of_string cs) as [| a l IH];
    simpl; [discriminate |].
  intros H Hc. apply andb_true_iff in H as [Ha Hl].
  apply orb_true_iff in Hc as [Hc | Hc].
  - apply Ascii.eqb_eq in Hc. now subst.
  - now apply IH.
Qed.

Lemma isoChar_T_space c : is_char "T" c || is_space c = true -> isoChar c = true.
Proof.
  intros H. apply orb_true_iff in H as [H | H].
  - unfold is_char in H. apply Ascii.eqb_eq in H. now subst.
  - unfold isoChar. rewrite H. apply orb_true_r.
Qed.

Lemma eats_char Q a : Q a = true -> eats Q (chr (is_char a)).
Proof.
  intros H. apply eats_chr. intros x Hx. unfold is_char in Hx.
  apply Ascii.eqb_eq in Hx. now subst.
Qed.

Ltac iso_eats :=
  repeat first
    [ apply eats_lit; reflexivity | apply eats_char; reflexivity
    | apply eats_many; exact isoChar_digit
    | apply eats_seq | apply eats_alt | apply eats_opt | apply eats_eps
    | apply eats_eos | apply eats_notahead | apply eats_times
    | apply eats_many1; exact isoChar_digit
    | apply eats_lit; reflexivity
    | apply eats_chr; first
        [ exact isoChar_digit
        | intros ?; apply isoChar_range; lia
        | intros ?; apply isoChar_one_of; reflexivity
        | exact isoChar_T_space ] ].

Lemma eats_iso_zone : eats isoChar iso_zone.
Proof. unfold iso_zone, iso_hour, iso_sixty, digit. iso_eats. Qed.

Lemma eats_iso_seconds_zone sep :
  all_chars isoChar sep = true -> eats isoChar (iso_seconds_zone sep).
Proof.
  intros H. unfold iso_seconds_zone, iso_sixty, iso_fraction, digit.
  apply eats_seq; [| apply eats_iso_zone].
  apply eats_opt, eats_seq; [now apply eats_lit |]. iso_eats.
Qed.

Lemma eats_iso_time : eats isoChar iso_time.
Proof.
  unfold iso_time, iso_hour, iso_hour_fraction, iso_fraction, iso_sixty, digit.
  apply eats_seq; [apply eats_chr; exact isoChar_T_space |].
  apply eats_alt; [| now apply eats_iso_seconds_zone].
  apply eats_alt.
  - apply eats_seq; [iso_eats |]. apply eats_alt.
    + apply eats_capture_opt; [reflexivity | |];
        (apply eats_seq; [iso_eats |]); (apply eats_seq; [iso_eats |]);
        now apply eats_iso_seconds_zone.
    + apply eats_seq; [iso_eats |]. now apply eats_iso_seconds_zone.
  - apply eats_seq; [iso_eats |]. apply eats_seq; [iso_eats |].
    apply eats_seq; [iso_eats |]. apply eats_seq; [iso_eats |].
    now apply eats_iso_seconds_zone.
Qed.

Lemma eats_iso_date sep :
  all_chars isoChar sep = true -> eats isoChar (iso_date sep).
Proof.
  intros H. unfold iso_date, iso_month, iso_day, iso_week, iso_ordinal, digit.
  apply eats_alt; [| iso_eats].
  apply eats_seq; [iso_eats |].
  apply eats_opt, eats_seq; [now apply eats_lit | iso_eats].
Qed.

Lemma consumes_iso_year : consumes isoChar 4 5 iso_year.
Proof.
  unfold iso_year, digit.
  apply (consumes_seq isoChar 0 1 4 4).
  - apply (consumes_opt isoChar 1), consumes_chr.
    intros c. apply isoChar_one_of. reflexivity.
  - apply (consumes_seq isoChar 4 4 0 0).
    + apply consumes_times, consumes_chr. exact isoChar_digit.
    + apply consumes_notahead.
Qed.

Lemma eats_after_year : eats isoChar afterYear.
Proof.
  unfold afterYear. apply eats_seq; [| apply eats_eos].
  apply eats_opt, eats_capture_opt; [reflexivity | |];
    (apply eats_seq; [now apply eats_iso_date | apply eats_opt, eats_iso_time]).
Qed.

(** A text that [isISO8601] accepts is made of the characters of ISO 8601
    dates and times and has at least the four digits of a year. *)
Lemma isISO8601_shape s :
  isISO8601 s = true ->
  all_chars isoChar s = true /\ 4 <= String.length s.
Proof.
  unfold isISO8601, test. rewrite iso8601_after_year. intros H.
  destruct (flat_map afterYear (iso_year s)) as [| r l] eqn:E; [discriminate |].
  assert (Hin : In r (flat_map afterYear (iso_year s))) by (rewrite E; now left).
  apply in_flat_map in Hin as (t & Ht & Hr).
  destruct (consumes_iso_year s t Ht) as (p1 & E1 & Q1 & L1).
  destruct (eats_after_year t r Hr) as (p2 & E2 & Q2).
  assert (Hr0 : r = "").
  { unfold afterYear in Hr. eapply finishes_seq; [apply finishes_eos | exact Hr]. }
  subst r t s. rewrite append_empty_r.
  rewrite all_chars_app, length_app_string, Q1, Q2. split; [reflexivity | lia].
Qed.

End IsoFacts.

Section AppointmentDate.
Import ExpressValidator Validator Rules.

Lemma date_cited_iff (req : gmap string jsvalue) :
  cites (validate appointmentValidation req) "appointmentDate" <->
  ValidatorJs.isISO8601 (toString (getField req "appointmentDate")) = false.
Proof.
  split.
  - intros Hc. apply (cites_iff _ _ _ appointmentValidation_fields) in Hc
      as (ch & i & m & Hin & Hf & Hr).
    unfold ruleFails in Hr. each_chain Hin; try discriminate Hf.
    destruct i as [| [| i]]; rule_cbn_in Hr; try discriminate Hr.
    + destruct (toString (getField req "appointmentDate")); [reflexivity |].
      simpl in Hr. discriminate.
    + destruct (ValidatorJs.isISO8601 _); [discriminate | reflexivity].
  - intros H.
    eapply (rule_failure_cites _ req 1 _ 1);
      [apply appointmentValidation_fields | reflexivity | reflexivity |].
    unfold ruleFails. rule_cbn. rewrite H. reflexivity.
Qed.

(** C6, as amended: in appointment creation the date must be present and
    in the ISO 8601 format that [isISO8601] recognises without its strict
    option.  The errors cite [appointmentDate] exactly when the value,
    read as a string, is not in that format; a request that continues has
    a date made of the characters of ISO 8601 only, at least four of them;
    every text YYYY-MM-DD with a month from 01 to 12 and a day from 01 to
    31 is accepted, whether or not the month has that day; the text
    "not-a-date" is rejected citing [appointmentDate].  The doctor is only
    checked for being non-empty: no non-empty string is ever cited for
    [doctor]. *)
Theorem appointment_date_format_and_doctor (req : gmap string jsvalue) :
  (cites (validate appointmentValidation req) "appointmentDate" <->
   ValidatorJs.isISO8601 (toString (getField req "appointmentDate")) = false)
  /\ (continues (validate appointmentValidation req) ->
      getField req "appointmentDate" <> JUndefined
      /\ Js.all_chars isoChar (toString (getField req "appointmentDate")) = true
      /\ 4 <= String.length (toString (getField req "appointmentDate")))
  /\ (forall y m d, y < 10 * 1000 -> 1 <= m <= 12 -> 1 <= d <= 31 ->
      getField req "appointmentDate" = JString (dateText y m d) ->
      ~ cites (validate appointmentValidation req) "appointmentDate")
  /\ (getField req "appointmentDate" = JString "not-a-date" ->
      rejected (validate appointmentValidation req)
      /\ cites (validate appointmentValidation req) "appointmentDate")
  /\ (forall s, s <> "" -> getField req "doctor" = JString s ->
      ~ cites (validate appointmentValidation req) "doctor").
Proof.
  split; [apply date_cited_iff |]. split; [| split; [| split]].
  - intros Hc.
    destruct (ValidatorJs.isISO8601 (toString (getField req "appointmentDate"))) eqn:E.
    + split; [intros Hu; rewrite Hu in E; discriminate |].
      now apply isISO8601_shape.
    + exfalso. apply date_cited_iff in E as (e & He & _).
      destruct Hc as (req' & Hn). rewrite Hn in He. inversion He.
  - intros y m d Hy Hm Hd Hs Hc. apply date_cited_iff in Hc.
    rewrite Hs in Hc. simpl in Hc.
    rewrite (dateText_accepted y m d Hy Hm Hd) in Hc. discriminate.
  - intros Hs.
    eapply (rule_failure_cites _ req 1 _ 1);
      [apply appointmentValidation_fields | reflexivity | reflexivity |].
    unfold ruleFails. rule_cbn. rewrite Hs. reflexivity.
  - intros s Hne Hs Hc.
    apply (cites_iff _ _ _ appointmentValidation_fields) in Hc
      as (ch & i & m & Hin & Hf & Hr).
    unfold ruleFails in Hr. each_chain Hin; try discriminate Hf.
    destruct i as [| i]; rule_cbn_in Hr; try discriminate Hr.
    rewrite Hs in Hr. simpl in Hr.
    apply is_empty_false in Hne. unfold ValidatorJs.isEmpty in Hr.
    rewrite Hne in Hr. discriminate.
Qed.

(** The thirtieth of February 2030 is no day of the calendar, and the
    appointment that names it continues to the handler. *)
Lemma appointment_feb30_continues :
  dateText 2030 2 30 = "2030-02-30"
  /\ calendarDay 2030 2 30 = false
  /\ validate appointmentValidation
       {[ "doctor" := JString "d1"; "appointmentDate" := JString "2030-02-30";
          "appointmentTime" := JString "10:30" ]}
     = Next {[ "doctor" := JString "d1";
               "appointmentDate" := JString "2030-02-30";
               "appointmentTime" := JString "10:30" ]}.
Proof. repeat split; vm_compute; reflexivity. Qed.

End AppointmentDate.

(** ** The email of a login *)

Section EmailFacts.
Import Js Re ValidatorJs Rules.

Lemma plain_part_no_quote r :
  match split "." (String "034" r) with
  | p :: _ => test emailUserUtf8Part p = false
  | [] => False
  end.
Proof.
  simpl. destruct (split "." r); reflexivity.
Qed.

Lemma isEmail_shape s :
  isEmail s = true ->
  String.length s <= 254
  /\ some_char (is_char "@") s = true
  /\ (starts_with "034" (localPart s) = true ->
      ends_with "034" (localPart s) = true).
Proof.
  unfold isEmail, localPart. intros H.
  destruct (254 <? String.length s)%nat eqn:L; [discriminate |].
  apply Nat.ltb_ge in L. split; [exact L |]. split.
  - destruct (some_char (is_char "@") s) eqn:E; [reflexivity |].
    rewrite (split_no_separator _ _ E) in H. simpl in H.
    destruct (negb (isByteLength 254 s)); [discriminate |]. simpl in H.
    destruct (negb (isFQDN s)); discriminate.
  - destruct (pop (split "@" s)) as [[parts domain] |]; [| discriminate].
    cbv zeta in H.
    destruct (negb (isByteLength 64 (join "@" parts)) || negb (isByteLength 254 domain));
      [discriminate |].
    destruct (negb (isFQDN domain)); [discriminate |].
    intros Hs. rewrite Hs in H.
    destruct (ends_with "034" (join "@" parts)); [reflexivity |].
    simpl in H. exfalso.
    destruct (join "@" parts) as [| c r]; [discriminate Hs |].
    simpl in Hs. apply Ascii.eqb_eq in Hs. subst c.
    pose proof (plain_part_no_quote r) as Hq.
    destruct (split "." (String "034" r)) as [| p l]; [contradiction |].
    simpl in H. rewrite Hq in H. discriminate.
Qed.
End EmailFacts.

Section LoginRules.
Import ExpressValidator Validator Rules.

Variable normalizeEmail_js : string -> jsvalue.

(** X5: login continues exactly when the trimmed email is an email address
    and the password is not empty; the password is neither trimmed nor
    checked for length or format.  The email of a login that continues
    has, once trimmed, at most 254 characters and an [@], and a local part
    that opens with a double quote also closes with one. *)
Theorem login_rule (req : gmap string jsvalue) :
  (continues (validate (loginValidation normalizeEmail_js) req) <->
   ValidatorJs.isEmail (Js.trim (toString (getField req "email"))) = true
   /\ toString (getField req "password") <> "")
  /\ (continues (validate (loginValidation normalizeEmail_js) req) ->
      String.length (Js.trim (toString (getField req "email"))) <= 254
      /\ Js.some_char (Js.is_char "@") (Js.trim (toString (getField req "email"))) = true
      /\ (ValidatorJs.starts_with "034"
            (localPart (Js.trim (toString (getField req "email")))) = true ->
          ValidatorJs.ends_with "034"
            (localPart (Js.trim (toString (getField req "email")))) = true)).
Proof.
  assert (Hiff : continues (validate (loginValidation normalizeEmail_js) req) <->
    ValidatorJs.isEmail (Js.trim (toString (getField req "email"))) = true
    /\ toString (getField req "password") <> "").
  { rewrite (continues_iff _ _ (loginValidation_fields _)). split.
    - intros Hno. split.
      + destruct (ValidatorJs.isEmail (Js.trim (toString (getField req "email")))) eqn:E;
          [reflexivity | exfalso].
        eapply (Hno _ 1); [eapply (list_elem_of_lookup_2 _ 0); reflexivity |].
        unfold ruleFails. rule_cbn. unfold ValidatorJs.trim. rewrite E. reflexivity.
      + intros E.
        eapply (Hno _ 0); [eapply (list_elem_of_lookup_2 _ 1); reflexivity |].
        unfold ruleFails. rule_cbn. rewrite E. reflexivity.
    - intros [He Hp] ch i m Hin. unfold ruleFails. each_chain Hin.
      + destruct i as [| [| [| i]]]; rule_cbn; try discriminate.
        unfold ValidatorJs.trim. rewrite He. discriminate.
      + destruct i as [| i]; rule_cbn; try discriminate.
        apply is_empty_false in Hp. unfold ValidatorJs.isEmpty. rewrite Hp.
        discriminate. }
  split; [exact Hiff |].
  intros Hc. apply Hiff in Hc as [He _]. now apply isEmail_shape.
Qed.

End LoginRules.
